(** * LEARNIFY front end: the test-taking modal and the REST client

    A shallow embedding of
    - [frontend/src/components/ui/TestModal.tsx] (the three-screen test
      session controller: its React state, its event handlers and the
      continuations of its two asynchronous handlers), and
    - [frontend/src/services/api.ts] (the axios response interceptor that
      refreshes the bearer token and replays a request).

    Conventions of the model.
    - A JavaScript [number] that holds an integer (question identifiers, the
      question index, millisecond clock readings) is a [Z]; [Math.floor(x / 1000)]
      on integers is [Z.div], which rounds towards minus infinity as
      [Math.floor] does.
    - [undefined] / [null] are [None]; the truthiness test of [!x], [x ? a : b]
      and [x || y] is written out ([truthy], [truthyNum], [or_else]).
    - A JS object used as a dictionary is a [gmap string string].
    - [Number.prototype.toString] on an integer is the decimal rendering
      [pretty] of stdpp.
    - React state is a record; a setter [setX v] replaces one field.  Each
      event handler runs against the state of the latest render.  An [async]
      handler is split at its [await]: the part before it returns the effects
      it issued, the part after it is a separate continuation that is applied
      to the state current when the promise settles.
    - [window.confirm] is the user's decision as a function of the prompt
      shown; [Date.now()] is a parameter of the handler that reads it.
    - [console.log] / [console.error] are not modelled. *)

From Stdlib Require Import Ascii.
From stdpp Require Import gmap strings list pretty.

Local Open Scope string_scope.
Local Open Scope Z_scope.
Local Open Scope list_scope.

(** ** JavaScript helpers *)

Module JS.

(** [n.toString()] for an integer [n]. *)
Definition toString (n : Z) : string := pretty n.

(** Truthiness of a [string | undefined]. *)
Definition truthy (v : option string) : bool :=
  match v with
  | None => false
  | Some EmptyString => false
  | Some (String _ _) => true
  end.

(** Truthiness of a [number | null]. *)
Definition truthyNum (v : option Z) : bool :=
  match v with
  | None => false
  | Some n => negb (n =? 0)
  end.

(** [a || b] where [a : string | undefined]. *)
Definition or_else (a b : option string) : option string :=
  if truthy a then a else b.

(** [Math.floor(ms / 1000)] on an integer number of milliseconds. *)
Definition floorSeconds (ms : Z) : Z := ms / 1000.

End JS.

(** ** services/api.ts: the types the modal uses *)

Module Api.

Inductive Label := A | B | C.

Definition labelString (l : Label) : string :=
  match l with A => "A" | B => "B" | C => "C" end.

Record TestQuestion := {
  question_id : Z;
  question : string;
  option_A : string;
  option_B : string;
  option_C : string;
  correct_answer : Label;
  explanation : string
}.

Inductive TestStatus := generating | ready | error.

Record DocumentTest := {
  test_id : string;
  document : string;
  title : string;
  question_count : Z;
  questions : list TestQuestion;
  status : TestStatus
}.

Record TestAttempt := {
  attempt_id : string;
  attempt_test : string;
  attempt_answers : gmap string string;
  score : Z;
  passed : bool;
  correct_count : Z;
  incorrect_count : Z;
  time_taken_seconds : option Z
}.

(** The payload of a failed call, as the handlers read it:
    [error.response?.data?.error], [.message] and [.detail]. *)
Record ErrorData := {
  data_error : option string;
  data_message : option string;
  data_detail : option string
}.

Record ErrorResponse := {
  response_status : Z;
  response_data : option ErrorData
}.

(** An axios error seen by a caller: [response] is undefined for a
    network failure. *)
Record AxiosError := {
  response : option ErrorResponse
}.

End Api.

(** ** components/ui/TestModal.tsx *)

Module TestModal.
Import JS Api.

Inductive TestScreen := ScreenStart | ScreenTest | ScreenResults.

(** The [useState] cells of the component. *)
Record State := {
  currentScreen : TestScreen;
  test : option DocumentTest;
  isGenerating : bool;
  generateError : option string;
  currentQuestionIndex : Z;
  answers : gmap string string;
  startTime : option Z;
  isSubmitting : bool;
  testAttempt : option TestAttempt;
  elapsedSeconds : Z
}.

(** The initial values given to [useState]. *)
Definition initialState : State := {|
  currentScreen := ScreenStart;
  test := None;
  isGenerating := false;
  generateError := None;
  currentQuestionIndex := 0;
  answers := ∅;
  startTime := None;
  isSubmitting := false;
  testAttempt := None;
  elapsedSeconds := 0
|}.

Definition setCurrentScreen (v : TestScreen) (st : State) : State :=
  {| currentScreen := v; test := test st; isGenerating := isGenerating st;
     generateError := generateError st;
     currentQuestionIndex := currentQuestionIndex st; answers := answers st;
     startTime := startTime st; isSubmitting := isSubmitting st;
     testAttempt := testAttempt st; elapsedSeconds := elapsedSeconds st |}.

Definition setTest (v : option DocumentTest) (st : State) : State :=
  {| currentScreen := currentScreen st; test := v;
     isGenerating := isGenerating st; generateError := generateError st;
     currentQuestionIndex := currentQuestionIndex st; answers := answers st;
     startTime := startTime st; isSubmitting := isSubmitting st;
     testAttempt := testAttempt st; elapsedSeconds := elapsedSeconds st |}.

Definition setIsGenerating (v : bool) (st : State) : State :=
  {| currentScreen := currentScreen st; test := test st; isGenerating := v;
     generateError := generateError st;
     currentQuestionIndex := currentQuestionIndex st; answers := answers st;
     startTime := startTime st; isSubmitting := isSubmitting st;
     testAttempt := testAttempt st; elapsedSeconds := elapsedSeconds st |}.

Definition setGenerateError (v : option string) (st : State) : State :=
  {| currentScreen := currentScreen st; test := test st;
     isGenerating := isGenerating st; generateError := v;
     currentQuestionIndex := currentQuestionIndex st; answers := answers st;
     startTime := startTime st; isSubmitting := isSubmitting st;
     testAttempt := testAttempt st; elapsedSeconds := elapsedSeconds st |}.

(** [setCurrentQuestionIndex] and [setAnswers] are called with an updater
    function ([prev => ...]) in the handlers, so they take one here. *)
Definition setCurrentQuestionIndex (f : Z → Z) (st : State) : State :=
  {| currentScreen := currentScreen st; test := test st;
     isGenerating := isGenerating st; generateError := generateError st;
     currentQuestionIndex := f (currentQuestionIndex st);
     answers := answers st;
     startTime := startTime st; isSubmitting := isSubmitting st;
     testAttempt := testAttempt st; elapsedSeconds := elapsedSeconds st |}.

Definition setAnswers (f : gmap string string → gmap string string)
    (st : State) : State :=
  {| currentScreen := currentScreen st; test := test st;
     isGenerating := isGenerating st; generateError := generateError st;
     currentQuestionIndex := currentQuestionIndex st;
     answers := f (answers st);
     startTime := startTime st; isSubmitting := isSubmitting st;
     testAttempt := testAttempt st; elapsedSeconds := elapsedSeconds st |}.

Definition setStartTime (v : option Z) (st : State) : State :=
  {| currentScreen := currentScreen st; test := test st;
     isGenerating := isGenerating st; generateError := generateError st;
     currentQuestionIndex := currentQuestionIndex st; answers := answers st;
     startTime := v; isSubmitting := isSubmitting st;
     testAttempt := testAttempt st; elapsedSeconds := elapsedSeconds st |}.

Definition setIsSubmitting (v : bool) (st : State) : State :=
  {| currentScreen := currentScreen st; test := test st;
     isGenerating := isGenerating st; generateError := generateError st;
     currentQuestionIndex := currentQuestionIndex st; answers := answers st;
     startTime := startTime st; isSubmitting := v;
     testAttempt := testAttempt st; elapsedSeconds := elapsedSeconds st |}.

Definition setTestAttempt (v : option TestAttempt) (st : State) : State :=
  {| currentScreen := currentScreen st; test := test st;
     isGenerating := isGenerating st; generateError := generateError st;
     currentQuestionIndex := currentQuestionIndex st; answers := answers st;
     startTime := startTime st; isSubmitting := isSubmitting st;
     testAttempt := v; elapsedSeconds := elapsedSeconds st |}.

Definition setElapsedSeconds (v : Z) (st : State) : State :=
  {| currentScreen := currentScreen st; test := test st;
     isGenerating := isGenerating st; generateError := generateError st;
     currentQuestionIndex := currentQuestionIndex st; answers := answers st;
     startTime := startTime st; isSubmitting := isSubmitting st;
     testAttempt := testAttempt st; elapsedSeconds := v |}.

(** What a handler does to the outside world, in order. *)
Inductive Effect :=
| Confirm (message : string) (accepted : bool)
| Alert (message : string)
| GenerateTest (documentId : string)
| SubmitTest (testId : string) (sent : gmap string string)
    (timeTaken : option Z).

(** The interval callback of the timer effect:
    [setElapsedSeconds(Math.floor((Date.now() - startTime) / 1000))].
    The interval only exists while the screen is ['test'] and [startTime]
    is truthy. *)
Definition timerTick (now : Z) (st : State) : State :=
  match currentScreen st, startTime st with
  | ScreenTest, Some s =>
      if truthyNum (Some s) then setElapsedSeconds (floorSeconds (now - s)) st
      else st
  | _, _ => st
  end.

(** [handleAnswerSelect(questionId, answer)]:
    [setAnswers(prev => ({...prev, [questionId.toString()]: answer}))]. *)
Definition handleAnswerSelect (questionId : Z) (answer : Label)
    (st : State) : State :=
  setAnswers (λ prev, <[toString questionId := labelString answer]> prev) st.

(** [handlePreviousQuestion()]. *)
Definition handlePreviousQuestion (st : State) : State :=
  if 0 <? currentQuestionIndex st
  then setCurrentQuestionIndex (λ prev, prev - 1) st
  else st.

(** [handleNextQuestion()]. *)
Definition handleNextQuestion (st : State) : State :=
  match test st with
  | Some t =>
      if currentQuestionIndex st <? Z.of_nat (length (questions t)) - 1
      then setCurrentQuestionIndex (λ prev, prev + 1) st
      else st
  | None => st
  end.

(** [test.questions.filter(q => !answers[q.id.toString()]).length]. *)
Definition unansweredCount (t : DocumentTest) (a : gmap string string)
    : nat :=
  length
    (List.filter (λ q, negb (truthy (a !! toString (question_id q))))
       (questions t)).

(** [Object.keys(answers).length]. *)
Definition answeredCount (a : gmap string string) : nat := size a.

Definition incompleteMessage (unanswered : nat) : string :=
  "You have " +:+ pretty unanswered
    +:+ " unanswered question(s). Submit anyway?".

Definition finalMessage : string :=
  "Are you sure you want to submit your test? You cannot change your answers after submission.".

Definition submitFailedMessage : string :=
  "Failed to submit test. Please try again.".

Definition generateFailedMessage : string :=
  "Failed to generate test. Please try again.".

(** [startTime ? Math.floor((Date.now() - startTime) / 1000) : undefined]. *)
Definition timeTakenAt (now : Z) (start : option Z) : option Z :=
  match start with
  | Some s =>
      if truthyNum (Some s) then Some (floorSeconds (now - s)) else None
  | None => None
  end.

(** [handleSubmitTest()] up to its [await apiService.submitTest(...)].
    The three [return]s before [setIsSubmitting(true)] are the three
    branches that give the state back untouched. *)
Definition handleSubmitTest (confirm : string → bool) (now : Z)
    (st : State) : State * list Effect :=
  match test st with
  | None => (st, [])
  | Some t =>
      let unanswered := unansweredCount t (answers st) in
      let finalStep (asked : list Effect) : State * list Effect :=
        if confirm finalMessage then
          (setIsSubmitting true st,
           asked ++ [Confirm finalMessage true;
                     SubmitTest (test_id t) (answers st)
                       (timeTakenAt now (startTime st))])
        else (st, asked ++ [Confirm finalMessage false]) in
      if (0 <? unanswered)%nat then
        if confirm (incompleteMessage unanswered)
        then finalStep [Confirm (incompleteMessage unanswered) true]
        else (st, [Confirm (incompleteMessage unanswered) false])
      else finalStep []
  end.

(** The rest of [handleSubmitTest] when [submitTest] resolves with
    [result]: [setTestAttempt(result); setCurrentScreen('results')], then
    the [finally] block. *)
Definition handleSubmitTest_fulfilled (result : TestAttempt)
    (st : State) : State * list Effect :=
  (setIsSubmitting false
     (setCurrentScreen ScreenResults (setTestAttempt (Some result) st)),
   []).

(** The rest of [handleSubmitTest] when [submitTest] rejects: the [catch]
    block shows a fixed [alert], then the [finally] block. *)
Definition handleSubmitTest_rejected (err : AxiosError)
    (st : State) : State * list Effect :=
  (setIsSubmitting false st, [Alert submitFailedMessage]).

(** [handleGenerateTest()] up to its [await apiService.generateTest(...)];
    [documentId] is the [document.id] prop. *)
Definition handleGenerateTest (documentId : string)
    (st : State) : State * list Effect :=
  (setGenerateError None (setIsGenerating true st),
   [GenerateTest documentId]).

(** The rest of [handleGenerateTest] when the call resolves with
    [generatedTest]; [now] is the [Date.now()] read by [setStartTime].
    [setAnswers({})] and [setCurrentQuestionIndex(0)] pass a value, which
    is the constant updater. *)
Definition handleGenerateTest_fulfilled (generatedTest : DocumentTest)
    (now : Z) (st : State) : State :=
  setIsGenerating false
    (setCurrentQuestionIndex (λ _, 0)
       (setAnswers (λ _, ∅)
          (setStartTime (Some now)
             (setCurrentScreen ScreenTest
                (setTest (Some generatedTest) st))))).

(** [error.response?.data?.f] for a field [f] of the payload. *)
Definition payloadField (f : ErrorData → option string)
    (err : AxiosError) : option string :=
  match response err with
  | Some r =>
      match response_data r with
      | Some d => f d
      | None => None
      end
  | None => None
  end.

(** [error.response?.data?.error || error.response?.data?.message
     || 'Failed to generate test. Please try again.'] *)
Definition generateErrorMessage (err : AxiosError) : string :=
  default generateFailedMessage
    (or_else
       (or_else (payloadField data_error err)
          (payloadField data_message err))
       (Some generateFailedMessage)).

(** The rest of [handleGenerateTest] when the call rejects. *)
Definition handleGenerateTest_rejected (err : AxiosError)
    (st : State) : State :=
  setIsGenerating false
    (setGenerateError (Some (generateErrorMessage err)) st).

(** The events that reach the component while the test screen is shown
    and no call is being settled: a click on an option, on Previous or on
    Next, and a firing of the one-second interval at clock reading
    [now]. *)
Inductive Event :=
| SelectAnswer (questionId : Z) (answer : Label)
| PreviousQuestion
| NextQuestion
| Tick (now : Z).

Definition step (st : State) (e : Event) : State :=
  match e with
  | SelectAnswer q l => handleAnswerSelect q l st
  | PreviousQuestion => handlePreviousQuestion st
  | NextQuestion => handleNextQuestion st
  | Tick now => timerTick now st
  end.

(** The events are handled one after the other, oldest first. *)
Definition run (es : list Event) (st : State) : State := foldl step st es.

Definition isNetworkCall (e : Effect) : bool :=
  match e with
  | GenerateTest _ | SubmitTest _ _ _ => true
  | Confirm _ _ | Alert _ => false
  end.

(** The user accepts every prompt that [handleSubmitTest] shows for
    [unanswered] open questions: the incomplete-answers prompt, shown only
    when [unanswered > 0], and the final prompt. *)
Definition acceptsAll (confirm : string → bool) (unanswered : nat) : bool :=
  (if (0 <? unanswered)%nat then confirm (incompleteMessage unanswered)
   else true)
  && confirm finalMessage.

(** The precedence the specification words for every failed call, to be
    compared with [generateErrorMessage] and with the [alert] of a failed
    submit: the server's error field if present, otherwise its detail
    field if present, otherwise the generic [fallback]. *)
Definition specErrorMessage (fallback : string) (err : AxiosError)
    : string :=
  match payloadField data_error err with
  | Some e => e
  | None =>
      match payloadField data_detail err with
      | Some d => d
      | None => fallback
      end
  end.

End TestModal.

(** ** services/api.ts: the axios instance and its interceptors *)

Module ApiClient.
Import JS.

(** The request config object; [_retry] is the flag the response
    interceptor sets on it. *)
Record RequestConfig := {
  url : string;
  authorization : option string;
  _retry : bool
}.

(** [localStorage], as the token functions use it. *)
Record Storage := {
  accessToken : option string;
  refreshToken : option string
}.

(** What the network answers to one HTTP exchange: a 2xx body, or a
    failure with the status of its response ([None]: no response). *)
Inductive Reply :=
| Fulfilled (data : string)
| Rejected (status : option Z).

Inductive NetEvent :=
| Sent (config : RequestConfig)
| RefreshPost (refresh : string).

(** [log] lists the HTTP exchanges made so far, oldest first; the reply to
    the next one is [server (length log)]. *)
Record World := {
  storage : Storage;
  location : option string;
  log : list NetEvent
}.

Record AxiosError := {
  config : RequestConfig;
  response_status : option Z
}.

Inductive Settled :=
| Resolve (data : string)
| Reject (err : AxiosError).

Definition getAccessToken (w : World) : option string :=
  accessToken (storage w).

Definition getRefreshToken (w : World) : option string :=
  refreshToken (storage w).

Definition setTokens (access refresh : string) (w : World) : World :=
  {| storage := {| accessToken := Some access;
                   refreshToken := Some refresh |};
     location := location w; log := log w |}.

Definition clearTokens (w : World) : World :=
  {| storage := {| accessToken := None; refreshToken := None |};
     location := location w; log := log w |}.

Definition setLocation (href : string) (w : World) : World :=
  {| storage := storage w; location := Some href; log := log w |}.

Definition record (e : NetEvent) (w : World) : World :=
  {| storage := storage w; location := location w; log := log w ++ [e] |}.

Definition bearer (token : string) : string := "Bearer " +:+ token.

Definition withAuthorization (token : string) (c : RequestConfig)
    : RequestConfig :=
  {| url := url c; authorization := Some (bearer token);
     _retry := _retry c |}.

Definition markRetry (c : RequestConfig) : RequestConfig :=
  {| url := url c; authorization := authorization c; _retry := true |}.

(** The request interceptor. *)
Definition requestInterceptor (w : World) (c : RequestConfig)
    : RequestConfig :=
  match getAccessToken w with
  | Some token => if truthy (Some token) then withAuthorization token c else c
  | None => c
  end.

Section Network.
(** The reply of the network to the [n]-th exchange of a run. *)
Variable server : nat → Reply.

(** [axiosInstance(config)]: the request interceptor, the exchange, then
    the response interceptor.  The only recursive call is the replay
    [return axiosInstance(originalRequest)]; it is returned without
    [await], so its rejection is not caught by the [catch] around the
    refresh.  [fuel] bounds the nesting of replays. *)
Fixpoint axiosInstance (fuel : nat) (c : RequestConfig) (w : World)
    : option (World * Settled) :=
  match fuel with
  | O => None
  | S fuel' =>
      let c1 := requestInterceptor w c in
      let reply := server (length (log w)) in
      let w1 := record (Sent c1) w in
      match reply with
      | Fulfilled data => Some (w1, Resolve data)
      | Rejected status =>
          let originalRequest := c1 in
          if bool_decide (status = Some 401) && negb (_retry originalRequest)
          then
            let originalRequest := markRetry originalRequest in
            match getRefreshToken w1 with
            | Some refresh =>
                if truthy (Some refresh) then
                  let refreshReply := server (length (log w1)) in
                  let w2 := record (RefreshPost refresh) w1 in
                  match refreshReply with
                  | Fulfilled access =>
                      let w3 := setTokens access refresh w2 in
                      axiosInstance fuel'
                        (withAuthorization access originalRequest) w3
                  | Rejected refreshStatus =>
                      Some (setLocation "/login" (clearTokens w2),
                            Reject {| config :=
                                        {| url := "/api/users/token/refresh/";
                                           authorization := None;
                                           _retry := false |};
                                      response_status := refreshStatus |})
                  end
                else
                  Some (w1, Reject {| config := originalRequest;
                                      response_status := status |})
            | None =>
                Some (w1, Reject {| config := originalRequest;
                                    response_status := status |})
            end
          else
            Some (w1, Reject {| config := originalRequest;
                                response_status := status |})
      end
  end.
End Network.

Definition isSent (e : NetEvent) : bool :=
  match e with Sent _ => true | RefreshPost _ => false end.

Definition isRefresh (e : NetEvent) : bool :=
  match e with Sent _ => false | RefreshPost _ => true end.

(** How many times a request went out through the instance, and how many
    refresh calls were made, in a log. *)
Definition sentCount (l : list NetEvent) : nat :=
  length (List.filter isSent l).

Definition refreshCount (l : list NetEvent) : nat :=
  length (List.filter isRefresh l).

(** The interceptor starts the refresh flow for request [c] in world [w]:
    the first reply is a 401, the request has not been retried, and a
    non-empty refresh token is stored. *)
Definition refreshes (server : nat → Reply) (c : RequestConfig)
    (w : World) : Prop :=
  server (length (log w)) = Rejected (Some 401)
  ∧ _retry c = false
  ∧ truthy (getRefreshToken w) = true.

(** The interceptor replays request [c]: it starts the refresh flow and
    the refresh call, the exchange after the first one, succeeds. *)
Definition replays (server : nat → Reply) (c : RequestConfig)
    (w : World) : Prop :=
  refreshes server c w
  ∧ ∃ access, server (S (length (log w))) = Fulfilled access.

End ApiClient.

Module ClientSamples.
Import ApiClient.

Definition getProfileRequest : RequestConfig :=
  {| url := "/api/users/profile/"; authorization := None;
     _retry := false |}.

Definition loggedIn : World :=
  {| storage := {| accessToken := Some "old-access";
                   refreshToken := Some "refresh-1" |};
     location := None; log := [] |}.

(** An access token is stored but no refresh token. *)
Definition withoutRefreshToken : World :=
  {| storage := {| accessToken := Some "old-access";
                   refreshToken := None |};
     location := None; log := [] |}.

(** Every exchange is answered with a 401. *)
Definition alwaysUnauthorized (n : nat) : Reply := Rejected (Some 401).

(** Every exchange through the instance is answered with a 401, the
    refresh call (the second exchange) succeeds. *)
Definition unauthorizedDespiteRefresh (n : nat) : Reply :=
  match n with
  | 1%nat => Fulfilled "new-access"
  | _ => Rejected (Some 401)
  end.

End ClientSamples.

(** ** Concrete sessions on which the theorems are exercised *)

Module Samples.
Import Api TestModal.

Definition sampleQuestion (i : Z) : TestQuestion :=
  {| question_id := i; question := "Which one?";
     option_A := "first"; option_B := "second"; option_C := "third";
     correct_answer := B; explanation := "because" |}.

Definition sampleTest (st : TestStatus) : DocumentTest :=
  {| test_id := "t-1"; document := "d-1"; title := "Sample";
     question_count := 3;
     questions := [sampleQuestion 11; sampleQuestion 12; sampleQuestion 13];
     status := st |}.

(** The start screen while the generate call is outstanding. *)
Definition loadingState : State :=
  (handleGenerateTest "d-1" initialState).1.

(** A session on [sampleTest ready] that began at clock reading 5000. *)
Definition freshSession : State :=
  handleGenerateTest_fulfilled (sampleTest ready) 5000 loadingState.

(** The same session with the first two questions answered, showing the
    last question. *)
Definition twoAnswered : State :=
  run [SelectAnswer 11 A; NextQuestion; SelectAnswer 12 C; NextQuestion]
    freshSession.

(** The same session with every question answered. *)
Definition allAnswered : State := run [SelectAnswer 13 B] twoAnswered.

(** A rejection whose payload carries only a [detail] field, and one
    whose payload carries an [error] field. *)
Definition detailOnlyError : AxiosError :=
  {| response := Some
       {| Api.response_status := 400;
          response_data := Some
            {| data_error := None; data_message := None;
               data_detail := Some "Document has no extractable text" |} |} |}.

Definition errorFieldError : AxiosError :=
  {| response := Some
       {| Api.response_status := 404;
          response_data := Some
            {| data_error := Some "Test not found"; data_message := None;
               data_detail := None |} |} |}.

(** A test whose two questions carry the same identifier. *)
Definition duplicatedIdsTest : DocumentTest :=
  {| test_id := "t-2"; document := "d-1"; title := "Duplicated";
     question_count := 2;
     questions := [sampleQuestion 11; sampleQuestion 11];
     status := ready |}.

Definition acceptEverything (prompt : string) : bool := true.

Definition declineIncomplete (prompt : string) : bool :=
  bool_decide (prompt = finalMessage).

Definition declineFinal (prompt : string) : bool :=
  negb (bool_decide (prompt = finalMessage)).

End Samples.

(** ** components/ui/TestModal.tsx: what the render reads and binds *)

Module TestModalView.
Import JS Api TestModal.

Fixpoint repeatChar (c : Ascii.ascii) (n : nat) : string :=
  match n with
  | O => ""
  | S n' => String c (repeatChar c n')
  end.

(** [s.padStart(targetLength, padChar)] for a one-character pad string. *)
Definition padStart (targetLength : nat) (padChar : Ascii.ascii) (s : string)
    : string :=
  repeatChar padChar (targetLength - String.length s) +:+ s.

(** [formatTime(seconds)]: [Math.floor(seconds / 60)] and [seconds % 60],
    each rendered with [toString().padStart(2, '0')].  The remainder of JS
    takes the sign of the dividend, as [Z.rem] does. *)
Definition formatTime (seconds : Z) : string :=
  let mins := seconds / 60 in
  let secs := Z.rem seconds 60 in
  padStart 2 "0"%char (toString mins) +:+ ":"
    +:+ padStart 2 "0"%char (toString secs).

(** [getGradeColor(grade)]. *)
Definition getGradeColor (grade : string) : string :=
  if String.eqb grade "A" then "text-green-600"
  else if String.eqb grade "B" then "text-blue-600"
  else if String.eqb grade "C" then "text-yellow-600"
  else if String.eqb grade "D" then "text-orange-600"
  else if String.eqb grade "F" then "text-red-600"
  else "text-gray-600".

(** [getGradeBgColor(grade)]; [darkMode] is the prop it closes over. *)
Definition getGradeBgColor (darkMode : bool) (grade : string) : string :=
  if darkMode then
    if String.eqb grade "A" then "bg-green-900/50 border-green-700"
    else if String.eqb grade "B" then "bg-blue-900/50 border-blue-700"
    else if String.eqb grade "C" then "bg-yellow-900/50 border-yellow-700"
    else if String.eqb grade "D" then "bg-orange-900/50 border-orange-700"
    else if String.eqb grade "F" then "bg-red-900/50 border-red-700"
    else "bg-gray-800 border-gray-700"
  else
    if String.eqb grade "A" then "bg-green-50 border-green-300"
    else if String.eqb grade "B" then "bg-blue-50 border-blue-300"
    else if String.eqb grade "C" then "bg-yellow-50 border-yellow-300"
    else if String.eqb grade "D" then "bg-orange-50 border-orange-300"
    else if String.eqb grade "F" then "bg-red-50 border-red-300"
    else "bg-gray-50 border-gray-300".

(** [test?.questions[currentQuestionIndex]]: an index that is negative or
    past the end reads [undefined]. *)
Definition currentQuestion (st : State) : option TestQuestion :=
  match test st with
  | Some t =>
      if currentQuestionIndex st <? 0 then None
      else questions t !! Z.to_nat (currentQuestionIndex st)
  | None => None
  end.

(** [currentQuestion ? answers[currentQuestion.id.toString()] : undefined]. *)
Definition currentAnswer (st : State) : option string :=
  match currentQuestion st with
  | Some q => answers st !! toString (question_id q)
  | None => None
  end.

(** [test ? Object.keys(answers).length : 0]. *)
Definition answeredCount (st : State) : Z :=
  match test st with
  | Some _ => Z.of_nat (size (answers st))
  | None => 0
  end.

(** [test?.questions.length || 20]: a length of 0 is falsy. *)
Definition totalQuestions (st : State) : Z :=
  match test st with
  | Some t =>
      if truthyNum (Some (Z.of_nat (length (questions t))))
      then Z.of_nat (length (questions t))
      else 20
  | None => 20
  end.

(** [renderTestScreen] returns [null] when [!test || !currentQuestion]; the
    main render calls it only when the screen is ['test']. *)
Definition testScreenShown (st : State) : bool :=
  match currentScreen st, test st, currentQuestion st with
  | ScreenTest, Some _, Some _ => true
  | _, _, _ => false
  end.

(** The Previous button: [disabled={currentQuestionIndex === 0}]. *)
Definition previousDisabled (st : State) : bool :=
  currentQuestionIndex st =? 0.

(** [currentQuestionIndex === totalQuestions - 1] chooses between the Submit
    button and the Next button. *)
Definition submitOffered (st : State) : bool :=
  currentQuestionIndex st =? totalQuestions st - 1.

(** What the user can do on the test screen besides submitting and closing,
    and the firing of the timer. *)
Inductive UiEvent :=
| ClickOption (option : Label)
| ClickPrevious
| ClickNext
| TimerFired (now : Z).

(** The [onClick] bindings of [renderTestScreen]: an option button calls
    [handleAnswerSelect(currentQuestion.id, option)]; a disabled Previous
    button and a Next button that is not rendered receive no click. *)
Definition uiStep (st : State) (e : UiEvent) : State :=
  match e with
  | TimerFired now => timerTick now st
  | ClickOption o =>
      if testScreenShown st then
        match currentQuestion st with
        | Some q => handleAnswerSelect (question_id q) o st
        | None => st
        end
      else st
  | ClickPrevious =>
      if testScreenShown st && negb (previousDisabled st)
      then handlePreviousQuestion st else st
  | ClickNext =>
      if testScreenShown st && negb (submitOffered st)
      then handleNextQuestion st else st
  end.

Definition uiRun (es : list UiEvent) (st : State) : State :=
  foldl uiStep st es.

(** The [onClick] of the "Take Another Test" button of the results
    screen. *)
Definition takeAnotherTest (st : State) : State :=
  setElapsedSeconds 0
    (setStartTime None
       (setCurrentQuestionIndex (λ _, 0)
          (setAnswers (λ _, ∅)
             (setTestAttempt None
                (setTest None (setCurrentScreen ScreenStart st)))))).

(** The character of a decimal digit [0 <= d <= 9], used to spell out what
    [formatTime] prints. *)
Definition digitChar (d : Z) : Ascii.ascii := pretty_N_char (Z.to_N d).

End TestModalView.

(** ** components/ui/TestModal.tsx: the component as an event loop *)

Module TestSession.
Import JS Api TestModal TestModalView.

(** Everything that can reach a mounted modal.  A click is delivered only
    to a button that is rendered and not disabled; a call settles only
    while it is outstanding, which the component records in [isGenerating]
    and [isSubmitting] (the flags that disable the two buttons). *)
Inductive SessionEvent :=
| ClickStartTest
| GenerateResolved (generatedTest : DocumentTest) (now : Z)
| GenerateRejected (err : AxiosError)
| Ui (e : UiEvent)
| ClickSubmit (confirm : string → bool) (now : Z)
| SubmitResolved (result : TestAttempt)
| SubmitRejected (err : AxiosError)
| ClickTakeAnotherTest.

(** [renderResultsScreen] returns [null] when [!testAttempt]. *)
Definition resultsScreenShown (st : State) : bool :=
  match currentScreen st, testAttempt st with
  | ScreenResults, Some _ => true
  | _, _ => false
  end.

(** The Start Test button: rendered on the start screen,
    [disabled={isGenerating}]. *)
Definition startOffered (st : State) : bool :=
  match currentScreen st with
  | ScreenStart => negb (isGenerating st)
  | _ => false
  end.

(** [documentId] is the [document.id] prop of the modal. *)
Definition sessionStep (documentId : string) (st : State)
    (e : SessionEvent) : State :=
  match e with
  | ClickStartTest =>
      if startOffered st then (handleGenerateTest documentId st).1 else st
  | GenerateResolved t now =>
      if isGenerating st then handleGenerateTest_fulfilled t now st else st
  | GenerateRejected err =>
      if isGenerating st then handleGenerateTest_rejected err st else st
  | Ui e => uiStep st e
  | ClickSubmit confirm now =>
      if testScreenShown st && submitOffered st && negb (isSubmitting st)
      then (handleSubmitTest confirm now st).1 else st
  | SubmitResolved result =>
      if isSubmitting st then (handleSubmitTest_fulfilled result st).1
      else st
  | SubmitRejected err =>
      if isSubmitting st then (handleSubmitTest_rejected err st).1 else st
  | ClickTakeAnotherTest =>
      if resultsScreenShown st then takeAnotherTest st else st
  end.

Definition sessionRun (documentId : string) (es : list SessionEvent)
    (st : State) : State :=
  foldl (sessionStep documentId) st es.

(** Every entry of the answer map belongs to a question of the test and
    holds one of the three labels. *)
Definition answersOf (t : DocumentTest) (a : gmap string string) : Prop :=
  ∀ k v, a !! k = Some v →
    (∃ q, q ∈ questions t ∧ k = toString (question_id q))
    ∧ ∃ l : Label, v = labelString l.

(** The index addresses a question of the test, or is still 0 on a test
    without questions. *)
Definition indexOf (t : DocumentTest) (i : Z) : Prop :=
  i = 0 ∨ 0 ≤ i ≤ Z.of_nat (length (questions t)) - 1.

(** What each screen holds. *)
Definition consistent (st : State) : Prop :=
  match currentScreen st with
  | ScreenStart =>
      test st = None ∧ testAttempt st = None ∧ answers st = ∅
      ∧ currentQuestionIndex st = 0 ∧ startTime st = None
      ∧ elapsedSeconds st = 0 ∧ isSubmitting st = false
      ∧ (isGenerating st = true → generateError st = None)
  | ScreenTest =>
      ∃ t s, test st = Some t ∧ startTime st = Some s
        ∧ testAttempt st = None ∧ isGenerating st = false
        ∧ generateError st = None
        ∧ answersOf t (answers st) ∧ indexOf t (currentQuestionIndex st)
  | ScreenResults =>
      ∃ t r, test st = Some t ∧ testAttempt st = Some r
        ∧ isSubmitting st = false ∧ isGenerating st = false
        ∧ generateError st = None
        ∧ answersOf t (answers st) ∧ indexOf t (currentQuestionIndex st)
  end.

End TestSession.

Module SessionSamples.
Import Api TestModal TestModalView TestSession.

(** A generated test that came back without questions. *)
Definition emptyTest : DocumentTest :=
  {| test_id := "t-0"; document := "d-1"; title := "Empty";
     question_count := 0; questions := []; status := ready |}.

Definition sampleAttempt : TestAttempt :=
  {| attempt_id := "a-1"; attempt_test := "t-1"; attempt_answers := ∅;
     score := 67; passed := true; correct_count := 2; incorrect_count := 1;
     time_taken_seconds := Some 4 |}.

(** Start, answer the first question, walk to the last one. *)
Definition untilLastQuestion : list SessionEvent :=
  [ClickStartTest; GenerateResolved (Samples.sampleTest ready) 5000;
   Ui (ClickOption A); Ui ClickNext; Ui (TimerFired 7000); Ui ClickNext].

(** The same, then submit and receive the graded attempt. *)
Definition untilResults : list SessionEvent :=
  untilLastQuestion
  ++ [ClickSubmit Samples.acceptEverything 9000;
      SubmitResolved sampleAttempt].

End SessionSamples.

(** ** services/api.ts: the methods of [apiService] used below *)

Module ApiService.
Import JS ApiClient.

(** The config a method hands to the instance; bodies are not part of
    [RequestConfig]. *)
Definition request (path : string) : RequestConfig :=
  {| url := path; authorization := None; _retry := false |}.

(** How an [async] method without a result ends. *)
Inductive Completion :=
| Returned
| Threw (err : AxiosError).

Section Network.
Variable server : nat → Reply.

(** [getProfile]: [axiosInstance.get('/api/users/profile/')], giving
    [response.data]. *)
Definition getProfile (fuel : nat) (w : World) : option (World * Settled) :=
  axiosInstance server fuel (request "/api/users/profile/") w.

(** [logout]: the logout call is made only when a refresh token is stored;
    [clearTokens()] comes after the [await], so it is skipped when the call
    rejects. *)
Definition logout (fuel : nat) (w : World) : option (World * Completion) :=
  match getRefreshToken w with
  | Some refresh =>
      if truthy (Some refresh) then
        match axiosInstance server fuel (request "/api/users/logout/") w with
        | Some (w', Resolve _) => Some (clearTokens w', Returned)
        | Some (w', Reject err) => Some (w', Threw err)
        | None => None
        end
      else Some (clearTokens w, Returned)
  | None => Some (clearTokens w, Returned)
  end.
End Network.

End ApiService.

(** ** contexts/AuthContext.tsx *)

Module AuthContext.
Import JS ApiClient.

(** The [useState] cells of [AuthProvider]; a [User] is the payload of the
    profile response. *)
Record AuthState := {
  user : option string;
  token : option string;
  loading : bool
}.

Definition initialAuth : AuthState :=
  {| user := None; token := None; loading := true |}.

Definition setUser (v : option string) (a : AuthState) : AuthState :=
  {| user := v; token := token a; loading := loading a |}.

Definition setToken (v : option string) (a : AuthState) : AuthState :=
  {| user := user a; token := v; loading := loading a |}.

Definition setLoading (v : bool) (a : AuthState) : AuthState :=
  {| user := user a; token := token a; loading := v |}.

(** [Boolean(user && token)]: a user object is truthy, a token is truthy
    when it is a non-empty string. *)
Definition isAuthenticated (a : AuthState) : bool :=
  match user a with
  | Some _ => truthy (token a)
  | None => false
  end.

(** [localStorage.setItem('accessToken', v)]. *)
Definition storeAccessToken (v : string) (w : World) : World :=
  {| storage := {| accessToken := Some v;
                   refreshToken := refreshToken (storage w) |};
     location := location w; log := log w |}.

Section Network.
Variable server : nat → Reply.

(** [checkAuth()], run once when the provider mounts. *)
Definition checkAuth (fuel : nat) (a : AuthState) (w : World)
    : option (AuthState * World) :=
  let accessToken := getAccessToken w in
  let refreshToken := getRefreshToken w in
  if truthy accessToken && truthy refreshToken then
    match ApiService.getProfile server fuel w with
    | Some (w', Resolve userProfile) =>
        Some (setLoading false
                (setToken accessToken (setUser (Some userProfile) a)), w')
    | Some (w', Reject _) => Some (setLoading false a, clearTokens w')
    | None => None
    end
  else Some (setLoading false a, w).
End Network.

(** [login(userData, accessToken)]. *)
Definition login (userData accessToken : string) (a : AuthState)
    (w : World) : AuthState * World :=
  (setToken (Some accessToken) (setUser (Some userData) a),
   storeAccessToken accessToken w).

(** [logout()]. *)
Definition logout (a : AuthState) (w : World) : AuthState * World :=
  (setToken None (setUser None a), clearTokens w).

End AuthContext.

(** ** pages/documents/DocumentsPage.tsx: the handlers around the modal *)

Module DocumentsPage.
Import JS ApiClient.

Record Document := {
  doc_id : string;
  doc_title : string;
  file_type : string;
  file_size : Z;
  doc_status : option string
}.

(** The [useState] cells that the handlers below read or write. *)
Record PageState := {
  documents : list Document;
  isLoading : bool;
  error : option string;
  testModalOpen : bool;
  selectedDocumentForTest : option Document
}.

Definition setDocuments (f : list Document → list Document)
    (p : PageState) : PageState :=
  {| documents := f (documents p); isLoading := isLoading p;
     error := error p; testModalOpen := testModalOpen p;
     selectedDocumentForTest := selectedDocumentForTest p |}.



Definition setTestModalOpen (v : bool) (p : PageState) : PageState :=
  {| documents := documents p; isLoading := isLoading p; error := error p;
     testModalOpen := v;
     selectedDocumentForTest := selectedDocumentForTest p |}.

Definition setSelectedDocumentForTest (v : option Document)
    (p : PageState) : PageState :=
  {| documents := documents p; isLoading := isLoading p; error := error p;
     testModalOpen := testModalOpen p; selectedDocumentForTest := v |}.

Inductive Effect :=
| Confirm (message : string) (accepted : bool)
| Alert (message : string)
| GetDocuments
| DeleteDocument (documentId : string)
| ScheduleLogout (delay : Z).









Definition deleteConfirmMessage : string :=
  "Are you sure you want to delete this document?".

(** [handleDelete(documentId)] up to its [await]. *)
Definition handleDelete (confirm : string → bool) (documentId : string)
    (p : PageState) : PageState * list Effect :=
  if confirm deleteConfirmMessage
  then (p, [Confirm deleteConfirmMessage true; DeleteDocument documentId])
  else (p, [Confirm deleteConfirmMessage false]).

(** The rest of [handleDelete] when the call resolves:
    [prev.filter(doc => doc.id !== documentId)]. *)
Definition handleDelete_fulfilled (documentId : string)
    (p : PageState) : PageState * list Effect :=
  (setDocuments
     (List.filter (λ doc, negb (String.eqb (doc_id doc) documentId))) p,
   []).

(** The rest of [handleDelete] when the call rejects. *)
Definition handleDelete_rejected (p : PageState)
    : PageState * list Effect :=
  (p, [Alert "Failed to delete document"]).

(** [handleCreateTest(document)] and [handleCloseTestModal()]. *)
Definition handleCreateTest (document : Document) (p : PageState)
    : PageState :=
  setTestModalOpen true (setSelectedDocumentForTest (Some document) p).

Definition handleCloseTestModal (p : PageState) : PageState :=
  setSelectedDocumentForTest None (setTestModalOpen false p).

(** [testModalOpen && selectedDocumentForTest && <TestModal .../>]: the
    document the modal is rendered for, if it is rendered. *)
Definition testModalFor (p : PageState) : option Document :=
  if testModalOpen p then selectedDocumentForTest p else None.

Section Network.
Variable server : nat → Reply.

(** [handleLogout()]: the [try] and the [catch] both end with the
    context's [logout()] and [navigate('/')]; the result carries the route
    navigated to. *)
Definition handleLogout (fuel : nat) (a : AuthContext.AuthState)
    (w : World) : option (AuthContext.AuthState * World * string) :=
  match ApiService.logout server fuel w with
  | Some (w', ApiService.Returned) =>
      let '(a', w'') := AuthContext.logout a w' in Some (a', w'', "/")
  | Some (w', ApiService.Threw _) =>
      let '(a', w'') := AuthContext.logout a w' in Some (a', w'', "/")
  | None => None
  end.
End Network.

End DocumentsPage.

(** * Properties *)

Import JS Api TestModal.

(** ** Frame lemmas: what the handlers leave alone *)

Section Frames.
Implicit Types (st : State) (e : Event) (es : list Event).

Lemma state_eq st st' :
  currentScreen st = currentScreen st' →
  test st = test st' →
  isGenerating st = isGenerating st' →
  generateError st = generateError st' →
  currentQuestionIndex st = currentQuestionIndex st' →
  answers st = answers st' →
  startTime st = startTime st' →
  isSubmitting st = isSubmitting st' →
  testAttempt st = testAttempt st' →
  elapsedSeconds st = elapsedSeconds st' →
  st = st'.
Proof. destruct st, st'; simpl; intros; by subst. Qed.

Lemma handlePreviousQuestion_index st :
  currentQuestionIndex (handlePreviousQuestion st) =
    if 0 <? currentQuestionIndex st then currentQuestionIndex st - 1
    else currentQuestionIndex st.
Proof. unfold handlePreviousQuestion. by case_match. Qed.

Lemma handleNextQuestion_index st t :
  test st = Some t →
  currentQuestionIndex (handleNextQuestion st) =
    if currentQuestionIndex st <? Z.of_nat (length (questions t)) - 1
    then currentQuestionIndex st + 1
    else currentQuestionIndex st.
Proof. intros Ht. unfold handleNextQuestion. rewrite Ht. by case_match. Qed.

Lemma handlePreviousQuestion_frame st :
  handlePreviousQuestion st =
    setCurrentQuestionIndex
      (λ _, currentQuestionIndex (handlePreviousQuestion st)) st.
Proof.
  unfold handlePreviousQuestion. case_match; [done|]. by destruct st.
Qed.

Lemma handleNextQuestion_frame st :
  handleNextQuestion st =
    setCurrentQuestionIndex
      (λ _, currentQuestionIndex (handleNextQuestion st)) st.
Proof.
  unfold handleNextQuestion.
  destruct (test st); [case_match; [done|] |]; by destruct st.
Qed.

Lemma timerTick_frame now st :
  timerTick now st =
    setElapsedSeconds (elapsedSeconds (timerTick now st)) st.
Proof.
  unfold timerTick.
  destruct (currentScreen st) eqn:?, (startTime st) eqn:?;
    try case_match; try done; by destruct st.
Qed.

(** No event of the test screen touches the screen, the test, the start
    instant, the pending flags or the stored attempt. *)
Lemma step_frame st e :
  currentScreen (step st e) = currentScreen st ∧
  test (step st e) = test st ∧
  startTime (step st e) = startTime st ∧
  isSubmitting (step st e) = isSubmitting st ∧
  isGenerating (step st e) = isGenerating st ∧
  generateError (step st e) = generateError st ∧
  testAttempt (step st e) = testAttempt st.
Proof.
  destruct e; simpl.
  - done.
  - by rewrite handlePreviousQuestion_frame.
  - by rewrite handleNextQuestion_frame.
  - by rewrite timerTick_frame.
Qed.

Lemma run_frame es st :
  currentScreen (run es st) = currentScreen st ∧
  test (run es st) = test st ∧
  startTime (run es st) = startTime st ∧
  isSubmitting (run es st) = isSubmitting st.
Proof.
  revert st. induction es as [|e es IH]; intros st; [done|].
  change (run (e :: es) st) with (run es (step st e)).
  destruct (IH (step st e)) as (-> & -> & -> & ->).
  destruct (step_frame st e) as (-> & -> & -> & -> & _). done.
Qed.

(** Only a click on an option changes the answers. *)
Lemma step_answers st e :
  answers (step st e) =
    match e with
    | SelectAnswer q l => <[toString q := labelString l]> (answers st)
    | _ => answers st
    end.
Proof.
  destruct e; simpl.
  - done.
  - by rewrite handlePreviousQuestion_frame.
  - by rewrite handleNextQuestion_frame.
  - by rewrite timerTick_frame.
Qed.

Lemma step_index_in_range st e t :
  test st = Some t →
  0 ≤ currentQuestionIndex st ≤ Z.of_nat (length (questions t)) - 1 →
  0 ≤ currentQuestionIndex (step st e)
    ≤ Z.of_nat (length (questions t)) - 1.
Proof.
  intros Ht Hrange. destruct e; simpl.
  - done.
  - rewrite handlePreviousQuestion_index. case_match; lia.
  - rewrite (handleNextQuestion_index _ _ Ht). case_match; lia.
  - by rewrite timerTick_frame.
Qed.

Lemma run_index_in_range es st t :
  test st = Some t →
  0 ≤ currentQuestionIndex st ≤ Z.of_nat (length (questions t)) - 1 →
  0 ≤ currentQuestionIndex (run es st)
    ≤ Z.of_nat (length (questions t)) - 1.
Proof.
  revert st. induction es as [|e es IH]; intros st Ht Hrange; [done|].
  change (run (e :: es) st) with (run es (step st e)).
  apply IH.
  - by destruct (step_frame st e) as (_ & -> & _).
  - by apply step_index_in_range.
Qed.
End Frames.

(** ** Navigation *)

(** C6: in a session on a test with N questions whose index is within
    [0, N-1], the index is still within [0, N-1] after any sequence of
    test-screen events; [handleNextQuestion] at N-1 and
    [handlePreviousQuestion] at 0 return the state as it was, elsewhere they
    move by one; and either handler changes no field but the index. *)
Theorem navigation_stays_in_range (st : State) (t : DocumentTest)
    (es : list Event) :
  test st = Some t →
  0 ≤ currentQuestionIndex st ≤ Z.of_nat (length (questions t)) - 1 →
  0 ≤ currentQuestionIndex (run es st) ≤ Z.of_nat (length (questions t)) - 1
  ∧ (currentQuestionIndex st = Z.of_nat (length (questions t)) - 1 →
     handleNextQuestion st = st)
  ∧ (currentQuestionIndex st = 0 → handlePreviousQuestion st = st)
  ∧ (currentQuestionIndex st < Z.of_nat (length (questions t)) - 1 →
     currentQuestionIndex (handleNextQuestion st)
       = currentQuestionIndex st + 1)
  ∧ (0 < currentQuestionIndex st →
     currentQuestionIndex (handlePreviousQuestion st)
       = currentQuestionIndex st - 1)
  ∧ handleNextQuestion st =
      setCurrentQuestionIndex
        (λ _, currentQuestionIndex (handleNextQuestion st)) st
  ∧ handlePreviousQuestion st =
      setCurrentQuestionIndex
        (λ _, currentQuestionIndex (handlePreviousQuestion st)) st.
Proof.
  intros Ht Hrange. split; [by apply run_index_in_range|].
  repeat apply conj.
  - intros Hlast. unfold handleNextQuestion. rewrite Ht.
    case_match; [lia | done].
  - intros Hfirst. unfold handlePreviousQuestion.
    case_match; [lia | done].
  - intros Hlt. rewrite (handleNextQuestion_index _ _ Ht).
    case_match; lia.
  - intros Hgt. rewrite handlePreviousQuestion_index. case_match; lia.
  - apply handleNextQuestion_frame.
  - apply handlePreviousQuestion_frame.
Qed.

Lemma navigation_stays_in_range_witness :
  currentQuestionIndex
    (run [NextQuestion; NextQuestion; NextQuestion; PreviousQuestion;
          PreviousQuestion; PreviousQuestion; PreviousQuestion; NextQuestion]
       Samples.freshSession) = 1
  ∧ 0 ≤ currentQuestionIndex
          (run [NextQuestion; NextQuestion; NextQuestion; PreviousQuestion;
                PreviousQuestion; PreviousQuestion; PreviousQuestion;
                NextQuestion]
             Samples.freshSession) ≤ 2.
Proof.
  split; [reflexivity|].
  apply (navigation_stays_in_range Samples.freshSession
           (Samples.sampleTest ready)
           [NextQuestion; NextQuestion; NextQuestion; PreviousQuestion;
            PreviousQuestion; PreviousQuestion; PreviousQuestion;
            NextQuestion]).
  - reflexivity.
  - simpl. lia.
Defined.

(** ** Selecting an answer *)

(** C7: [handleAnswerSelect] with the same label twice gives the state that
    one call gives; with another label afterwards it gives what that label
    alone gives, and the entry of the question holds the last label; the
    entries of other keys and every field other than [answers] are left as
    they were (the screen in particular). *)
Theorem handleAnswerSelect_idempotent_overwriting (q : Z) (l l' : Label)
    (st : State) :
  handleAnswerSelect q l (handleAnswerSelect q l st)
    = handleAnswerSelect q l st
  ∧ handleAnswerSelect q l' (handleAnswerSelect q l st)
      = handleAnswerSelect q l' st
  ∧ answers (handleAnswerSelect q l' (handleAnswerSelect q l st))
      !! toString q = Some (labelString l')
  ∧ (∀ k : string, k ≠ toString q →
       answers (handleAnswerSelect q l st) !! k = answers st !! k)
  ∧ handleAnswerSelect q l st
      = setAnswers (λ _, answers (handleAnswerSelect q l st)) st
  ∧ currentScreen (handleAnswerSelect q l st) = currentScreen st.
Proof.
  unfold handleAnswerSelect, setAnswers; simpl. split_and!.
  - by rewrite insert_insert_eq.
  - by rewrite insert_insert_eq.
  - by rewrite lookup_insert_eq.
  - intros k Hk. by rewrite lookup_insert_ne.
  - done.
  - done.
Qed.

(** ** Submitting *)

Section Submit.
Implicit Types (st : State) (t : DocumentTest) (confirm : string → bool).

(** The prompts shown on the way to an accepted submit. *)
Lemma handleSubmitTest_accepted confirm now st t :
  test st = Some t →
  acceptsAll confirm (unansweredCount t (answers st)) = true →
  handleSubmitTest confirm now st =
    (setIsSubmitting true st,
     (if (0 <? unansweredCount t (answers st))%nat
      then [Confirm (incompleteMessage (unansweredCount t (answers st))) true]
      else [])
     ++ [Confirm finalMessage true;
         SubmitTest (test_id t) (answers st)
           (timeTakenAt now (startTime st))]).
Proof.
  intros Ht. unfold acceptsAll, handleSubmitTest. rewrite Ht.
  destruct (0 <? _)%nat; simpl.
  - intros [-> ->]%andb_true_iff. done.
  - intros ->. done.
Qed.

(** A declined prompt ends the handler with the state it was given. *)
Lemma handleSubmitTest_declined confirm now st t :
  test st = Some t →
  acceptsAll confirm (unansweredCount t (answers st)) = false →
  (handleSubmitTest confirm now st).1 = st
  ∧ existsb isNetworkCall (handleSubmitTest confirm now st).2 = false.
Proof.
  intros Ht. unfold acceptsAll, handleSubmitTest. rewrite Ht.
  destruct (0 <? _)%nat; simpl.
  - destruct (confirm (incompleteMessage _)); simpl; [|done].
    intros ->. done.
  - intros ->. done.
Qed.

Lemma last_two {X} (pre : list X) (a b : X) :
  last (pre ++ [a; b]) = Some b.
Proof.
  change [a; b] with ([a] ++ [b]). rewrite app_assoc. apply last_snoc.
Qed.

Lemma incompleteMessage_not_final n : incompleteMessage n ≠ finalMessage.
Proof. unfold incompleteMessage, finalMessage. simpl. discriminate. Qed.

Lemma timeTakenAt_started now start :
  start ≠ 0 → timeTakenAt now (Some start) = Some ((now - start) / 1000).
Proof.
  intros Hs. unfold timeTakenAt, truthyNum, floorSeconds.
  by destruct (Z.eqb_spec start 0).
Qed.
End Submit.

(** C1: for a session that holds a test, [handleSubmitTest] shows the
    incomplete-answers prompt exactly when the unanswered count is positive;
    it issues a network call exactly when every prompt it shows is accepted,
    and then the call is the single submit request, placed after the accepted
    prompts; when a prompt is declined it issues no network call and returns
    the state it was given, every field included. *)
Theorem submit_only_after_both_confirmations (confirm : string → bool)
    (now : Z) (st : State) (t : DocumentTest) :
  test st = Some t →
  ((∃ b, Confirm (incompleteMessage (unansweredCount t (answers st))) b
           ∈ (handleSubmitTest confirm now st).2)
   ↔ (0 < unansweredCount t (answers st))%nat)
  ∧ (existsb isNetworkCall (handleSubmitTest confirm now st).2 = true
     ↔ acceptsAll confirm (unansweredCount t (answers st)) = true)
  ∧ (acceptsAll confirm (unansweredCount t (answers st)) = true →
     (handleSubmitTest confirm now st).2 =
       (if (0 <? unansweredCount t (answers st))%nat
        then [Confirm (incompleteMessage (unansweredCount t (answers st)))
                true]
        else [])
       ++ [Confirm finalMessage true;
           SubmitTest (test_id t) (answers st)
             (timeTakenAt now (startTime st))])
  ∧ (acceptsAll confirm (unansweredCount t (answers st)) = false →
     (handleSubmitTest confirm now st).1 = st
     ∧ existsb isNetworkCall (handleSubmitTest confirm now st).2 = false).
Proof.
  intros Ht. repeat apply conj.
  - intros [b Hb]. unfold handleSubmitTest in Hb. rewrite Ht in Hb.
    destruct (0 <? _)%nat eqn:Hpos; [by apply Nat.ltb_lt in Hpos|].
    exfalso. destruct (confirm finalMessage); simpl in Hb.
    + apply elem_of_cons in Hb as [Hb|Hb].
      * inversion Hb.
      * apply list_elem_of_singleton in Hb. discriminate.
    + apply list_elem_of_singleton in Hb.
      inversion Hb.
  - intros Hpos. apply Nat.ltb_lt in Hpos.
    unfold handleSubmitTest. rewrite Ht, Hpos.
    destruct (confirm (incompleteMessage _)).
    + exists true. destruct (confirm finalMessage); simpl; apply list_elem_of_here.
    + exists false. apply list_elem_of_here.
  - intros Hcall.
    destruct (acceptsAll confirm (unansweredCount t (answers st))) eqn:Hacc;
      [done|].
    destruct (handleSubmitTest_declined confirm now st t Ht Hacc) as [_ Hno].
    congruence.
  - intros Hacc. rewrite (handleSubmitTest_accepted confirm now st t Ht Hacc).
    simpl. by destruct (0 <? _)%nat.
  - intros Hacc. by rewrite (handleSubmitTest_accepted confirm now st t Ht Hacc).
  - intros Hacc. by apply (handleSubmitTest_declined confirm now st t Ht Hacc).
Qed.

Lemma submit_only_after_both_confirmations_witness :
  (handleSubmitTest Samples.declineIncomplete 9000 Samples.twoAnswered).1
    = Samples.twoAnswered
  ∧ existsb isNetworkCall
      (handleSubmitTest Samples.declineIncomplete 9000 Samples.twoAnswered).2
    = false.
Proof.
  apply (submit_only_after_both_confirmations Samples.declineIncomplete 9000
           Samples.twoAnswered (Samples.sampleTest ready)).
  - reflexivity.
  - vm_compute. reflexivity.
Defined.

(** C5: when an accepted submit of a test-screen session is rejected, the
    state is again the one the submit started from: the screen is still the
    test screen, [answers] is the same map, [isSubmitting] is false again and
    a non-empty message has been shown; whatever test-screen events arrived
    while the call was outstanding, the rejection itself changes neither the
    screen nor the answers; and a new [handleSubmitTest] sends the same
    answers again. *)
Theorem failed_submit_keeps_session (confirm : string → bool) (now : Z)
    (err : AxiosError) (st : State) (t : DocumentTest) :
  test st = Some t →
  currentScreen st = ScreenTest →
  isSubmitting st = false →
  acceptsAll confirm (unansweredCount t (answers st)) = true →
  (handleSubmitTest_rejected err (handleSubmitTest confirm now st).1).1 = st
  ∧ currentScreen
      (handleSubmitTest_rejected err (handleSubmitTest confirm now st).1).1
    = ScreenTest
  ∧ answers
      (handleSubmitTest_rejected err (handleSubmitTest confirm now st).1).1
    = answers st
  ∧ (handleSubmitTest_rejected err (handleSubmitTest confirm now st).1).2
    = [Alert submitFailedMessage]
  ∧ submitFailedMessage ≠ ""
  ∧ (∀ es : list Event,
       currentScreen
         (handleSubmitTest_rejected err
            (run es (handleSubmitTest confirm now st).1)).1 = ScreenTest
       ∧ answers
           (handleSubmitTest_rejected err
              (run es (handleSubmitTest confirm now st).1)).1
         = answers (run es (handleSubmitTest confirm now st).1))
  ∧ (∀ now' : Z,
       last
         (handleSubmitTest confirm now'
            (handleSubmitTest_rejected err
               (handleSubmitTest confirm now st).1).1).2
       = Some (SubmitTest (test_id t) (answers st)
                 (timeTakenAt now' (startTime st)))).
Proof.
  intros Ht Hscreen Hidle Hacc.
  rewrite (handleSubmitTest_accepted confirm now st t Ht Hacc). simpl.
  assert (setIsSubmitting false (setIsSubmitting true st) = st) as Hback.
  { apply state_eq; simpl; done. }
  rewrite Hback. repeat apply conj; try done.
  - intros es.
    destruct (run_frame es (setIsSubmitting true st)) as (Hs & _).
    simpl. rewrite Hs. done.
  - intros now'.
    rewrite (handleSubmitTest_accepted confirm now' st t Ht Hacc). simpl.
    apply last_two.
Qed.

Lemma failed_submit_keeps_session_witness :
  (handleSubmitTest_rejected {| response := None |}
     (handleSubmitTest Samples.acceptEverything 9000 Samples.twoAnswered).1).1
  = Samples.twoAnswered.
Proof.
  apply (failed_submit_keeps_session Samples.acceptEverything 9000
           {| response := None |} Samples.twoAnswered
           (Samples.sampleTest ready)); reflexivity.
Defined.

(** C8: in a session that began at clock reading [start] (a non-zero
    reading, as every reading of the wall clock is), an accepted submit at
    clock reading [now] sends the whole seconds of [now - start], rounded
    down, whatever test-screen events, timer ticks included, came in
    between. *)
Theorem time_taken_is_submit_minus_start (confirm : string → bool)
    (t : DocumentTest) (start now : Z) (es : list Event) (st : State) :
  start ≠ 0 →
  acceptsAll confirm
    (unansweredCount t
       (answers (run es (handleGenerateTest_fulfilled t start st)))) = true →
  last
    (handleSubmitTest confirm now
       (run es (handleGenerateTest_fulfilled t start st))).2
  = Some (SubmitTest (test_id t)
            (answers (run es (handleGenerateTest_fulfilled t start st)))
            (Some ((now - start) / 1000)))
  ∧ 1000 * ((now - start) / 1000) ≤ now - start
      < 1000 * ((now - start) / 1000) + 1000.
Proof.
  intros Hstart Hacc.
  destruct (run_frame es (handleGenerateTest_fulfilled t start st))
    as (_ & Ht & Hs & _).
  simpl in Ht, Hs. split.
  2: { pose proof (Z.div_mod (now - start) 1000 ltac:(lia)).
       pose proof (Z.mod_pos_bound (now - start) 1000 ltac:(lia)). lia. }
  rewrite (handleSubmitTest_accepted confirm now _ t Ht Hacc). simpl.
  rewrite Hs, (timeTakenAt_started now start Hstart).
  apply last_two.
Qed.

Lemma time_taken_is_submit_minus_start_witness :
  last
    (handleSubmitTest Samples.acceptEverything 68999
       (run [Tick 6000; SelectAnswer 11 A; Tick 7000; Tick 8000]
          (handleGenerateTest_fulfilled (Samples.sampleTest ready) 5000
             Samples.loadingState))).2
  = Some (SubmitTest "t-1"
            (answers
               (run [Tick 6000; SelectAnswer 11 A; Tick 7000; Tick 8000]
                  (handleGenerateTest_fulfilled (Samples.sampleTest ready)
                     5000 Samples.loadingState)))
            (Some ((68999 - 5000) / 1000))).
Proof.
  apply (time_taken_is_submit_minus_start Samples.acceptEverything
           (Samples.sampleTest ready) 5000 68999
           [Tick 6000; SelectAnswer 11 A; Tick 7000; Tick 8000]
           Samples.loadingState).
  - lia.
  - reflexivity.
Defined.

(** ** Generating *)

(** C2 (as the code has it): when the generate call resolves, the
    continuation shows the test screen for the returned test whatever its
    status is, with an empty answer map, the clock reading as start instant,
    index 0 and [isGenerating] false. *)
Theorem generate_success_starts_session (t : DocumentTest) (now : Z)
    (st : State) :
  currentScreen (handleGenerateTest_fulfilled t now st) = ScreenTest
  ∧ test (handleGenerateTest_fulfilled t now st) = Some t
  ∧ answers (handleGenerateTest_fulfilled t now st) = ∅
  ∧ startTime (handleGenerateTest_fulfilled t now st) = Some now
  ∧ currentQuestionIndex (handleGenerateTest_fulfilled t now st) = 0
  ∧ isGenerating (handleGenerateTest_fulfilled t now st) = false.
Proof. by destruct st. Qed.

(** A returned test whose status is ['generating'] is shown on the test
    screen all the same: the transition has no status guard. *)
Lemma generate_success_without_ready_status :
  status (Samples.sampleTest generating) ≠ ready
  ∧ currentScreen Samples.loadingState = ScreenStart
  ∧ isGenerating Samples.loadingState = true
  ∧ currentScreen
      (handleGenerateTest_fulfilled (Samples.sampleTest generating) 5000
         Samples.loadingState) = ScreenTest.
Proof. by repeat split. Qed.

(** C3 (as the code has it): a failed generate call stores a non-empty
    message chosen as the payload's [error] field when that is a non-empty
    string, otherwise the payload's [message] field when that is a non-empty
    string, otherwise the fixed generate fallback, and the payload's
    [detail] field plays no part; a failed submit call shows the fixed
    submit fallback whatever the payload holds. *)
Theorem failure_message_selection (err : AxiosError) (st : State) :
  generateError (handleGenerateTest_rejected err st)
    = Some (generateErrorMessage err)
  ∧ (truthy (payloadField data_error err) = true →
     Some (generateErrorMessage err) = payloadField data_error err)
  ∧ (truthy (payloadField data_error err) = false →
     truthy (payloadField data_message err) = true →
     Some (generateErrorMessage err) = payloadField data_message err)
  ∧ (truthy (payloadField data_error err) = false →
     truthy (payloadField data_message err) = false →
     generateErrorMessage err = generateFailedMessage)
  ∧ (∀ status e m d d',
       err = {| response := Some
                  {| Api.response_status := status;
                     response_data := Some
                       {| data_error := e; data_message := m;
                          data_detail := d |} |} |} →
       generateErrorMessage err =
         generateErrorMessage
           {| response := Some
                {| Api.response_status := status;
                   response_data := Some
                     {| data_error := e; data_message := m;
                        data_detail := d' |} |} |})
  ∧ generateErrorMessage err ≠ ""
  ∧ (handleSubmitTest_rejected err st).2 = [Alert submitFailedMessage].
Proof.
  unfold generateErrorMessage, or_else. repeat apply conj.
  - done.
  - intros He. rewrite He. simpl. rewrite He.
    by destruct (payloadField data_error err).
  - intros He Hm. rewrite He. simpl. rewrite Hm.
    by destruct (payloadField data_message err).
  - intros He Hm. rewrite He. simpl. rewrite Hm. done.
  - intros status e m d d' ->. done.
  - destruct (truthy (payloadField data_error err)) eqn:He.
    + simpl. rewrite He.
      by destruct (payloadField data_error err) as [[|??]|].
    + simpl. destruct (truthy (payloadField data_message err)) eqn:Hm.
      * by destruct (payloadField data_message err) as [[|??]|].
      * done.
  - done.
Qed.

(** The message chosen for a payload that has only a [detail] field is the
    generate fallback, not the detail; the message shown for a failed submit
    whose payload has an [error] field is the submit fallback, not that
    field.  Both differ from the precedence worded in the specification. *)
Lemma failure_message_departs_from_spec_precedence :
  specErrorMessage generateFailedMessage Samples.detailOnlyError
    = "Document has no extractable text"
  ∧ generateErrorMessage Samples.detailOnlyError = generateFailedMessage
  ∧ generateErrorMessage Samples.detailOnlyError
      ≠ specErrorMessage generateFailedMessage Samples.detailOnlyError
  ∧ specErrorMessage submitFailedMessage Samples.errorFieldError
      = "Test not found"
  ∧ (handleSubmitTest_rejected Samples.errorFieldError
       Samples.twoAnswered).2
      ≠ [Alert (specErrorMessage submitFailedMessage
                  Samples.errorFieldError)].
Proof. repeat split; done. Qed.

(** ** Counting unanswered questions *)

Section Counting.
Implicit Types (a : gmap string string) (qs : list TestQuestion).

Lemma filter_ext_elem {X} (f g : X → bool) (l : list X) :
  (∀ x, x ∈ l → f x = g x) → List.filter f l = List.filter g l.
Proof.
  induction l as [|x l IH]; intros Hfg; [done|]. simpl.
  rewrite (Hfg x) by apply list_elem_of_here.
  rewrite IH; [done|]. intros y Hy. apply Hfg. by apply list_elem_of_further.
Qed.

Lemma filter_negb_length {X} (f : X → bool) (l : list X) :
  (length (List.filter (λ x, negb (f x)) l) + length (List.filter f l)
   = length l)%nat.
Proof.
  induction l as [|x l IH]; [done|]. simpl.
  destruct (f x); simpl; lia.
Qed.

Lemma toString_inj (m n : Z) : toString m = toString n → m = n.
Proof. unfold toString. apply pretty_Z_inj. Qed.

Lemma labelString_truthy (l : Label) : truthy (Some (labelString l)) = true.
Proof. by destruct l. Qed.

(** With pairwise distinct identifiers, the questions that have a truthy
    entry are as many as the entries, provided every entry is truthy and
    belongs to a question. *)
Lemma answered_questions_count qs a :
  NoDup (question_id <$> qs) →
  (∀ k, is_Some (a !! k) → ∃ q, q ∈ qs ∧ k = toString (question_id q)) →
  (∀ k v, a !! k = Some v → truthy (Some v) = true) →
  length (List.filter (λ q, truthy (a !! toString (question_id q))) qs)
    = size a.
Proof.
  revert a. induction qs as [|q qs IH]; intros a Hnodup Hkeys Hvals.
  - assert (a = ∅) as ->; [|done].
    apply map_empty. intros k. destruct (a !! k) eqn:Hk; [|done].
    destruct (Hkeys k) as (q & Hq & _); [by eexists|].
    by apply elem_of_nil in Hq.
  - rewrite fmap_cons in Hnodup. apply NoDup_cons in Hnodup as [Hfresh Hnodup].
    assert (∀ q', q' ∈ qs →
              toString (question_id q') ≠ toString (question_id q))
      as Hother.
    { intros q' Hq' Heq%toString_inj. apply Hfresh.
      rewrite <- Heq. by apply list_elem_of_fmap_2. }
    simpl. destruct (a !! toString (question_id q)) as [v|] eqn:Hq.
    + rewrite (Hvals _ _ Hq). simpl.
      rewrite (filter_ext_elem _
                 (λ q', truthy (delete (toString (question_id q)) a
                                  !! toString (question_id q')))).
      2: { intros q' Hq'. by rewrite lookup_delete_ne by (symmetry; by apply Hother). }
      rewrite IH.
      * rewrite map_size_delete_Some by by eexists.
        assert (size a ≠ 0%nat); [|lia].
        intros Hz%map_size_empty_inv. by rewrite Hz in Hq.
      * done.
      * intros k [w Hk]. apply lookup_delete_Some in Hk as [Hne Hk].
        destruct (Hkeys k) as (q' & Hq' & ->); [by eexists|].
        apply elem_of_cons in Hq' as [->|Hq']; [done|]. by exists q'.
      * intros k w Hk. apply lookup_delete_Some in Hk as [_ Hk].
        by apply (Hvals k).
    + simpl. apply IH; [done| |done].
      intros k Hk. destruct (Hkeys k Hk) as (q' & Hq' & ->).
      apply elem_of_cons in Hq' as [->|Hq'].
      * rewrite Hq in Hk. by destruct Hk.
      * by exists q'.
Qed.
End Counting.

(** C9: for a test whose question identifiers are pairwise distinct (the
    data model's TestDefinition) and an answer map whose keys all belong to
    questions of the test and whose values are labels A, B or C, the
    unanswered count that [handleSubmitTest] computes is the number of
    questions minus the number of entries of the map, which is at most the
    number of questions. *)
Theorem unanswered_count_is_total_minus_answered (t : DocumentTest)
    (a : gmap string string) :
  NoDup (question_id <$> questions t) →
  (∀ k, k ∈ dom a →
     ∃ q, q ∈ questions t ∧ k = toString (question_id q)) →
  (∀ k v, a !! k = Some v → ∃ l : Label, v = labelString l) →
  unansweredCount t a = (length (questions t) - answeredCount a)%nat
  ∧ (answeredCount a ≤ length (questions t))%nat.
Proof.
  intros Hnodup Hkeys Hvals.
  pose proof (filter_negb_length
                (λ q, truthy (a !! toString (question_id q)))
                (questions t)) as Hsum.
  rewrite (answered_questions_count (questions t) a) in Hsum.
  - unfold unansweredCount, answeredCount. lia.
  - done.
  - intros k Hk. apply Hkeys. by apply elem_of_dom.
  - intros k v Hk. destruct (Hvals k v Hk) as [l ->].
    apply labelString_truthy.
Qed.

Lemma unanswered_count_is_total_minus_answered_witness :
  unansweredCount (Samples.sampleTest ready)
    (<[toString 11 := labelString A]> (<[toString 12 := labelString C]> ∅))
  = (length (questions (Samples.sampleTest ready))
     - answeredCount
         (<[toString 11 := labelString A]>
            (<[toString 12 := labelString C]> ∅)))%nat
  ∧ (answeredCount
       (<[toString 11 := labelString A]>
          (<[toString 12 := labelString C]> ∅))
     ≤ length (questions (Samples.sampleTest ready)))%nat.
Proof.
  apply (unanswered_count_is_total_minus_answered (Samples.sampleTest ready)
           (<[toString 11 := labelString A]>
              (<[toString 12 := labelString C]> ∅))).
  - apply (bool_decide_unpack _). vm_compute. reflexivity.
  - intros k Hk. rewrite !dom_insert_L, dom_empty_L in Hk.
    apply elem_of_union in Hk as [Hk|Hk].
    + apply elem_of_singleton in Hk as ->.
      exists (Samples.sampleQuestion 11). split; [set_solver|done].
    + apply elem_of_union in Hk as [Hk|Hk]; [|set_solver].
      apply elem_of_singleton in Hk as ->.
      exists (Samples.sampleQuestion 12). split; [set_solver|done].
  - intros k v Hk.
    apply lookup_insert_Some in Hk as [[_ <-]|[_ Hk]]; [by exists A|].
    apply lookup_insert_Some in Hk as [[_ <-]|[_ Hk]]; [by exists C|].
    done.
Defined.

(** The distinctness of the identifiers is needed: with a repeated
    identifier one entry answers two questions. *)
Lemma unanswered_count_with_repeated_identifier :
  unansweredCount Samples.duplicatedIdsTest {[toString 11 := labelString A]}
  = 0%nat
  ∧ (length (questions Samples.duplicatedIdsTest)
     - answeredCount {[toString 11 := labelString A]})%nat = 1%nat.
Proof. split; vm_compute; reflexivity. Qed.

(** ** The response interceptor *)

Section Interceptor.
Import ApiClient.
Variable server : nat → Reply.
Implicit Types (c : RequestConfig) (w : World).

Lemma requestInterceptor_retry w c :
  _retry (requestInterceptor w c) = _retry c.
Proof.
  unfold requestInterceptor.
  destruct (getAccessToken w); [case_match|]; done.
Qed.

Lemma log_record e w : log (record e w) = log w ++ [e].
Proof. done. Qed.

Lemma length_log_record e w :
  length (log (record e w)) = S (length (log w)).
Proof. rewrite log_record, length_app. simpl. lia. Qed.

Lemma axiosInstance_unfold fuel c w :
  axiosInstance server (S fuel) c w =
    let c1 := requestInterceptor w c in
    let w1 := record (Sent c1) w in
    match server (length (log w)) with
    | Fulfilled data => Some (w1, Resolve data)
    | Rejected status =>
        if bool_decide (status = Some 401) && negb (_retry c1) then
          match getRefreshToken w1 with
          | Some refresh =>
              if truthy (Some refresh) then
                match server (length (log w1)) with
                | Fulfilled access =>
                    axiosInstance server fuel
                      (withAuthorization access (markRetry c1))
                      (setTokens access refresh
                         (record (RefreshPost refresh) w1))
                | Rejected refreshStatus =>
                    Some (setLocation "/login"
                            (clearTokens (record (RefreshPost refresh) w1)),
                          Reject {| config :=
                                      {| url := "/api/users/token/refresh/";
                                         authorization := None;
                                         _retry := false |};
                                    response_status := refreshStatus |})
                end
              else Some (w1, Reject {| config := markRetry c1;
                                       response_status := status |})
          | None => Some (w1, Reject {| config := markRetry c1;
                                        response_status := status |})
          end
        else Some (w1, Reject {| config := c1; response_status := status |})
    end.
Proof. done. Qed.

(** A request that carries the retry flag goes out once and its outcome
    is passed on as it is. *)
Lemma axiosInstance_retried fuel c w :
  _retry c = true →
  axiosInstance server (S fuel) c w =
    Some (record (Sent (requestInterceptor w c)) w,
          match server (length (log w)) with
          | Fulfilled data => Resolve data
          | Rejected status =>
              Reject {| config := requestInterceptor w c;
                        response_status := status |}
          end).
Proof.
  intros Hretry. simpl. destruct (server (length (log w))); [done|].
  by rewrite requestInterceptor_retry, Hretry, andb_false_r.
Qed.
End Interceptor.

(** Closes a branch of the interceptor in which the exchanges it added to
    the log are [new]. *)
Ltac settle_with new :=
  eexists _, _, new;
  split; [reflexivity|];
  split; [cbn [ApiClient.log ApiClient.record ApiClient.setTokens
               ApiClient.clearTokens ApiClient.setLocation];
          rewrite <- ?app_assoc; reflexivity|];
  cbn [ApiClient.sentCount ApiClient.refreshCount List.filter
       ApiClient.isSent ApiClient.isRefresh length];
  repeat apply conj; try lia; try done;
  try (intros; exfalso; intuition congruence);
  try (intros (_ & ? & ?); discriminate);
  try (cbn [truthy]; intros; exfalso; intuition congruence);
  try (intuition eauto; fail).

(** C10 (as the code has it): a call through the instance always settles;
    it sends the request once, or twice when it is replayed, never more.  It
    is replayed exactly when the first reply is a 401, the request does not
    carry the retry flag, a non-empty refresh token is stored and the refresh
    call succeeds; the refresh call is made exactly when the first three of
    these hold.  A request that carries the retry flag is sent once without
    any refresh call, and when a replay is rejected, with a 401 or anything
    else, that rejection is the outcome and the replay was the last
    exchange. *)
Theorem interceptor_replays_at_most_once (server : nat → ApiClient.Reply)
    (fuel : nat) (c : ApiClient.RequestConfig) (w : ApiClient.World) :
  (2 ≤ fuel)%nat →
  ∃ w' r new,
    ApiClient.axiosInstance server fuel c w = Some (w', r)
    ∧ ApiClient.log w' = ApiClient.log w ++ new
    ∧ (1 ≤ ApiClient.sentCount new ≤ 2)%nat
    ∧ (ApiClient.sentCount new = 2%nat ↔ ApiClient.replays server c w)
    ∧ (ApiClient.refreshCount new ≤ 1)%nat
    ∧ (ApiClient.refreshCount new = 1%nat ↔ ApiClient.refreshes server c w)
    ∧ (ApiClient._retry c = true →
       new = [ApiClient.Sent (ApiClient.requestInterceptor w c)])
    ∧ (ApiClient.replays server c w →
       ∀ status,
         server (S (S (length (ApiClient.log w))))
           = ApiClient.Rejected status →
         ∃ replayed,
           r = ApiClient.Reject
                 {| ApiClient.config := replayed;
                    ApiClient.response_status := status |}
           ∧ ApiClient._retry replayed = true
           ∧ last new = Some (ApiClient.Sent replayed)).
Proof.
  intros Hfuel. destruct fuel as [|[|fuel]]; [lia|lia|].
  unfold ApiClient.replays, ApiClient.refreshes.
  rewrite axiosInstance_unfold. cbv zeta.
  rewrite requestInterceptor_retry, length_log_record.
  change (ApiClient.getRefreshToken (ApiClient.record _ w))
    with (ApiClient.getRefreshToken w).
  destruct (server (length (ApiClient.log w))) as [data|status] eqn:Hfirst.
  { settle_with [ApiClient.Sent (ApiClient.requestInterceptor w c)]. }
  destruct (bool_decide (status = Some 401)) eqn:Hstatus;
    [apply bool_decide_eq_true in Hstatus; subst status
    |apply bool_decide_eq_false in Hstatus];
    (destruct (ApiClient._retry c) eqn:Hretry); cbn [andb negb].
  - settle_with [ApiClient.Sent (ApiClient.requestInterceptor w c)].
  - destruct (ApiClient.getRefreshToken w) as [refresh|] eqn:Hrefresh.
    + destruct (truthy (Some refresh)) eqn:Htruthy.
      * destruct (server (S (length (ApiClient.log w))))
          as [access|rs] eqn:Hsecond.
        -- rewrite axiosInstance_retried by done.
           change (length (ApiClient.log (ApiClient.setTokens _ _ ?w0)))
             with (length (ApiClient.log w0)).
           rewrite !length_log_record.
           settle_with
             [ApiClient.Sent (ApiClient.requestInterceptor w c);
              ApiClient.RefreshPost refresh;
              ApiClient.Sent
                (ApiClient.requestInterceptor
                   (ApiClient.setTokens access refresh
                      (ApiClient.record (ApiClient.RefreshPost refresh)
                         (ApiClient.record
                            (ApiClient.Sent
                               (ApiClient.requestInterceptor w c)) w)))
                   (ApiClient.withAuthorization access
                      (ApiClient.markRetry
                         (ApiClient.requestInterceptor w c))))].
           intros _ status Hthird. rewrite Hthird.
           eexists. split; [reflexivity|].
           split; [by rewrite requestInterceptor_retry | reflexivity].
        -- settle_with [ApiClient.Sent (ApiClient.requestInterceptor w c);
                        ApiClient.RefreshPost refresh].
      * settle_with [ApiClient.Sent (ApiClient.requestInterceptor w c)].
    + settle_with [ApiClient.Sent (ApiClient.requestInterceptor w c)].
  - settle_with [ApiClient.Sent (ApiClient.requestInterceptor w c)].
  - settle_with [ApiClient.Sent (ApiClient.requestInterceptor w c)].
Qed.

Lemma interceptor_replays_at_most_once_witness :
  ∃ w' r new,
    ApiClient.axiosInstance ClientSamples.unauthorizedDespiteRefresh 2
      ClientSamples.getProfileRequest ClientSamples.loggedIn = Some (w', r)
    ∧ ApiClient.log w' = ApiClient.log ClientSamples.loggedIn ++ new
    ∧ (1 ≤ ApiClient.sentCount new ≤ 2)%nat.
Proof.
  destruct (interceptor_replays_at_most_once
              ClientSamples.unauthorizedDespiteRefresh 2
              ClientSamples.getProfileRequest ClientSamples.loggedIn)
    as (w' & r & new & Hrun & Hlog & Hsent & _).
  - lia.
  - exists w', r, new. repeat split; [exact Hrun | exact Hlog | apply Hsent ..].
Defined.

(** A 401 on the request and again on its replay: one refresh call, one
    replay, and the replay's 401 is the outcome. *)
Example replay_rejected_again :
  ApiClient.axiosInstance ClientSamples.unauthorizedDespiteRefresh 2
    ClientSamples.getProfileRequest ClientSamples.loggedIn
  = Some
      ({| ApiClient.storage :=
            {| ApiClient.accessToken := Some "new-access";
               ApiClient.refreshToken := Some "refresh-1" |};
          ApiClient.location := None;
          ApiClient.log :=
            [ApiClient.Sent
               {| ApiClient.url := "/api/users/profile/";
                  ApiClient.authorization := Some "Bearer old-access";
                  ApiClient._retry := false |};
             ApiClient.RefreshPost "refresh-1";
             ApiClient.Sent
               {| ApiClient.url := "/api/users/profile/";
                  ApiClient.authorization := Some "Bearer new-access";
                  ApiClient._retry := true |}] |},
       ApiClient.Reject
         {| ApiClient.config :=
              {| ApiClient.url := "/api/users/profile/";
                 ApiClient.authorization := Some "Bearer new-access";
                 ApiClient._retry := true |};
            ApiClient.response_status := Some 401 |}).
Proof. reflexivity. Qed.

(** A 401 while no refresh token is stored: the request has gone out once,
    no refresh call is made, nothing is replayed and the 401 is the
    outcome. *)
Lemma unauthorized_without_refresh_token_not_replayed :
  ClientSamples.alwaysUnauthorized 0 = ApiClient.Rejected (Some 401)
  ∧ ApiClient._retry ClientSamples.getProfileRequest = false
  ∧ ApiClient.axiosInstance ClientSamples.alwaysUnauthorized 2
      ClientSamples.getProfileRequest ClientSamples.withoutRefreshToken
    = Some
        ({| ApiClient.storage :=
              ApiClient.storage ClientSamples.withoutRefreshToken;
            ApiClient.location := None;
            ApiClient.log :=
              [ApiClient.Sent
                 {| ApiClient.url := "/api/users/profile/";
                    ApiClient.authorization := Some "Bearer old-access";
                    ApiClient._retry := false |}] |},
         ApiClient.Reject
           {| ApiClient.config :=
                {| ApiClient.url := "/api/users/profile/";
                   ApiClient.authorization := Some "Bearer old-access";
                   ApiClient._retry := true |};
              ApiClient.response_status := Some 401 |})
  ∧ ApiClient.sentCount
      [ApiClient.Sent
         {| ApiClient.url := "/api/users/profile/";
            ApiClient.authorization := Some "Bearer old-access";
            ApiClient._retry := false |}] = 1%nat
  ∧ ApiClient.refreshCount
      [ApiClient.Sent
         {| ApiClient.url := "/api/users/profile/";
            ApiClient.authorization := Some "Bearer old-access";
            ApiClient._retry := false |}] = 0%nat.
Proof. repeat split. Qed.

(** * Further properties of the modal *)

(** ** The elapsed-time display *)

Section FormatTime.
Import TestModalView.

Lemma padStart_two_digits (n : Z) :
  0 ≤ n < 100 →
  padStart 2 "0"%char (toString n)
  = String (digitChar (n / 10)) (String (digitChar (n mod 10)) "").
Proof.
  intros Hn.
  assert (Forall (λ n : Z,
            padStart 2 "0"%char (toString n)
            = String (digitChar (n / 10)) (String (digitChar (n mod 10)) ""))
            (seqZ 0 100)) as Hall.
  { apply (bool_decide_unpack _). vm_compute. reflexivity. }
  rewrite Forall_forall in Hall. apply Hall. apply elem_of_seqZ. lia.
Qed.

Lemma digitChar_inj (d d' : Z) :
  0 ≤ d < 10 → 0 ≤ d' < 10 → digitChar d = digitChar d' → d = d'.
Proof.
  intros Hd Hd' Heq. unfold digitChar in Heq.
  apply pretty_N_char_inj in Heq; lia.
Qed.

Lemma string_length_app (a b : string) :
  String.length (a +:+ b) = (String.length a + String.length b)%nat.
Proof. induction a as [|c a IH]; simpl; [done|]. by rewrite IH. Qed.

Lemma string_app_inj_length (a a' b b' : string) :
  String.length b = String.length b' →
  a +:+ b = a' +:+ b' → a = a' ∧ b = b'.
Proof.
  revert a'. induction a as [|c a IH]; intros [|c' a'] Hlen Heq.
  - done.
  - apply (f_equal String.length) in Heq.
    rewrite !string_length_app in Heq. simpl in Heq. lia.
  - apply (f_equal String.length) in Heq.
    rewrite !string_length_app in Heq. simpl in Heq. lia.
  - change (String c (a +:+ b) = String c' (a' +:+ b')) in Heq.
    injection Heq as -> Heq. destruct (IH a' Hlen Heq) as [-> ->]. done.
Qed.

Lemma pretty_N_go_length (x : N) (s : string) :
  (String.length s ≤ String.length (pretty_N_go x s))%nat.
Proof.
  revert s. induction (N.lt_wf_0 x) as [x _ IH]; intros s.
  destruct (decide (x = 0%N)) as [->|Hx]; [by rewrite pretty_N_go_0|].
  rewrite pretty_N_go_step by lia.
  etrans; [|apply IH; apply N.div_lt; lia]. simpl. lia.
Qed.

Lemma toString_length_three (z : Z) :
  100 ≤ z → (3 ≤ String.length (toString z))%nat.
Proof.
  intros Hz. destruct z as [|p|p]; try lia.
  unfold toString, pretty, pretty_Z, pretty, pretty_positive, pretty, pretty_N.
  destruct (decide (N.pos p = 0%N)) as [|_]; [done|].
  assert (100 ≤ N.pos p)%N as Hp by lia.
  assert (10 ≤ N.pos p `div` 10)%N
    by (apply N.div_le_lower_bound; lia).
  assert (1 ≤ (N.pos p `div` 10) `div` 10)%N
    by (apply N.div_le_lower_bound; lia).
  rewrite 3!pretty_N_go_step by lia.
  etrans; [|apply pretty_N_go_length]. simpl. lia.
Qed.

Lemma padStart_long (c : Ascii.ascii) (s : string) :
  (2 ≤ String.length s)%nat → padStart 2 c s = s.
Proof.
  intros Hlen. unfold padStart.
  by replace (2 - String.length s)%nat with 0%nat by lia.
Qed.

(** The two-character field is different for different numbers. *)
Lemma padStart_toString_inj (m m' : Z) :
  0 ≤ m → 0 ≤ m' →
  padStart 2 "0"%char (toString m) = padStart 2 "0"%char (toString m') →
  m = m'.
Proof.
  intros Hm Hm' Heq.
  destruct (decide (m < 100)) as [Hlt|Hge];
    destruct (decide (m' < 100)) as [Hlt'|Hge'].
  - rewrite !padStart_two_digits in Heq by lia.
    injection Heq as Htens Hunits.
    apply digitChar_inj in Htens;
      [|split; [apply Z.div_pos; lia | apply Z.div_lt_upper_bound; lia]..].
    apply digitChar_inj in Hunits; [|apply Z.mod_pos_bound; lia..].
    rewrite (Z.div_mod m 10), (Z.div_mod m' 10) by lia. lia.
  - exfalso. rewrite padStart_two_digits in Heq by lia.
    pose proof (toString_length_three m' ltac:(lia)) as Hlen.
    rewrite padStart_long in Heq by lia. rewrite <- Heq in Hlen.
    simpl in Hlen. lia.
  - exfalso. rewrite (padStart_two_digits m') in Heq by lia.
    pose proof (toString_length_three m ltac:(lia)) as Hlen.
    rewrite padStart_long in Heq by lia. rewrite Heq in Hlen.
    simpl in Hlen. lia.
  - pose proof (toString_length_three m ltac:(lia)).
    pose proof (toString_length_three m' ltac:(lia)).
    rewrite !padStart_long in Heq by lia.
    by apply pretty_Z_inj in Heq.
Qed.
End FormatTime.

(** X1: for an elapsed time below 100 minutes, [formatTime] prints exactly
    five characters: the two decimal digits of the minutes, a colon, and
    the two decimal digits of the seconds within the minute. *)
Theorem formatTime_below_100_minutes (seconds : Z) :
  0 ≤ seconds < 6000 →
  TestModalView.formatTime seconds
  = String (TestModalView.digitChar (seconds / 600))
      (String (TestModalView.digitChar (seconds / 60 mod 10))
         (String ":"
            (String (TestModalView.digitChar (seconds mod 60 / 10))
               (String (TestModalView.digitChar (seconds mod 60 mod 10))
                  "")))).
Proof.
  intros Hs. unfold TestModalView.formatTime. cbv zeta.
  rewrite Z.rem_mod_nonneg by lia.
  assert (0 ≤ seconds / 60 < 100) as Hmins
    by (split; [apply Z.div_pos; lia | apply Z.div_lt_upper_bound; lia]).
  pose proof (Z.mod_pos_bound seconds 60 ltac:(lia)) as Hsecs.
  rewrite (padStart_two_digits (seconds / 60)) by lia.
  rewrite (padStart_two_digits (seconds mod 60)) by lia.
  rewrite Z.div_div by lia. done.
Qed.

Lemma formatTime_below_100_minutes_witness :
  TestModalView.formatTime 125 = "02:05".
Proof.
  rewrite (formatTime_below_100_minutes 125); [reflexivity | lia].
Defined.

(** X2: [formatTime] never prints the same text for two different
    non-negative elapsed times, however long the session lasts. *)
Theorem formatTime_injective (seconds seconds' : Z) :
  0 ≤ seconds → 0 ≤ seconds' →
  TestModalView.formatTime seconds = TestModalView.formatTime seconds' →
  seconds = seconds'.
Proof.
  intros Hs Hs'. unfold TestModalView.formatTime. cbv zeta.
  rewrite !Z.rem_mod_nonneg by lia.
  pose proof (Z.mod_pos_bound seconds 60 ltac:(lia)) as Hr.
  pose proof (Z.mod_pos_bound seconds' 60 ltac:(lia)) as Hr'.
  rewrite (padStart_two_digits (seconds mod 60)) by lia.
  rewrite (padStart_two_digits (seconds' mod 60)) by lia.
  intros Heq. apply string_app_inj_length in Heq as [Hmins Hsecs]; [|done].
  apply padStart_toString_inj in Hmins; [|apply Z.div_pos; lia..].
  injection Hsecs as Htens Hunits.
  apply digitChar_inj in Htens;
    [|split; [apply Z.div_pos; lia | apply Z.div_lt_upper_bound; lia]..].
  apply digitChar_inj in Hunits; [|apply Z.mod_pos_bound; lia..].
  assert (seconds mod 60 = seconds' mod 60) as Hmod.
  { rewrite (Z.div_mod (seconds mod 60) 10),
      (Z.div_mod (seconds' mod 60) 10) by lia. lia. }
  rewrite (Z.div_mod seconds 60), (Z.div_mod seconds' 60) by lia. lia.
Qed.

Lemma formatTime_injective_witness :
  TestModalView.formatTime 3599 = "59:59" ∧ 3599 = 3540 + 59.
Proof.
  split; [reflexivity|].
  apply (formatTime_injective 3599 (3540 + 59)); [lia | lia | reflexivity].
Defined.

(** ** What each screen holds *)

Section SessionInvariant.
Import TestModalView TestSession.
Variable documentId : string.
Implicit Types (st : State) (t : DocumentTest).

Lemma consistent_initialState : consistent initialState.
Proof. unfold consistent. simpl. repeat split; done. Qed.

Lemma currentQuestion_elem st t q :
  test st = Some t → currentQuestion st = Some q → q ∈ questions t.
Proof.
  intros Ht. unfold currentQuestion. rewrite Ht.
  destruct (currentQuestionIndex st <? 0); [done|].
  apply list_elem_of_lookup_2.
Qed.

Lemma testScreenShown_inv st :
  testScreenShown st = true →
  currentScreen st = ScreenTest
  ∧ ∃ t q, test st = Some t ∧ currentQuestion st = Some q.
Proof.
  unfold testScreenShown.
  destruct (currentScreen st), (test st) as [t|],
    (currentQuestion st) as [q|]; try done.
  intros _. split; [done|]. by exists t, q.
Qed.

Lemma answersOf_insert t (a : gmap string string) q (l : Label) :
  answersOf t a → q ∈ questions t →
  answersOf t (<[toString (question_id q) := labelString l]> a).
Proof.
  intros Ha Hq k v Hk.
  apply lookup_insert_Some in Hk as [[<- <-]|[_ Hk]].
  - split; [by exists q | by exists l].
  - by apply Ha.
Qed.

Lemma handleSubmitTest_state (confirm : string → bool) (now : Z) st :
  (handleSubmitTest confirm now st).1 = st
  ∨ (handleSubmitTest confirm now st).1 = setIsSubmitting true st.
Proof.
  unfold handleSubmitTest. destruct (test st); [|by left].
  repeat case_match; simpl; auto.
Qed.

Lemma uiStep_consistent st e : consistent st → consistent (uiStep st e).
Proof.
  intros Hc. destruct e as [o| | |now]; simpl.
  - destruct (testScreenShown st) eqn:Hshown; [|done].
    apply testScreenShown_inv in Hshown as (Hs & t & q & Ht & Hq).
    rewrite Hq. unfold consistent in *. simpl. rewrite Hs in *.
    destruct Hc as (t' & s & Ht' & Hstart & Hatt & Hgen & Herr & Ha & Hi).
    exists t', s. repeat (split; [done|]). split; [|done].
    apply answersOf_insert; [done|].
    by apply (currentQuestion_elem st).
  - destruct (testScreenShown st) eqn:Hshown; [|done].
    apply testScreenShown_inv in Hshown as (Hs & _).
    unfold previousDisabled. destruct (Z.eqb_spec (currentQuestionIndex st) 0);
      [done|]. simpl.
    rewrite handlePreviousQuestion_frame.
    rewrite handlePreviousQuestion_index.
    unfold consistent in *. simpl. rewrite Hs in *.
    destruct Hc as (t' & s & Ht' & Hstart & Hatt & Hgen & Herr & Ha & Hi).
    exists t', s. repeat (split; [done|]).
    unfold indexOf in *. destruct (Z.ltb_spec 0 (currentQuestionIndex st)); lia.
  - destruct (testScreenShown st) eqn:Hshown; [|done].
    apply testScreenShown_inv in Hshown as (Hs & _).
    destruct (submitOffered st); [done|]. simpl.
    unfold consistent in *. rewrite Hs in Hc.
    destruct Hc as (t' & s & Ht' & Hstart & Hatt & Hgen & Herr & Ha & Hi).
    rewrite handleNextQuestion_frame.
    rewrite (handleNextQuestion_index _ _ Ht'). simpl. rewrite Hs.
    exists t', s. repeat (split; [done|]).
    unfold indexOf in *.
    destruct (Z.ltb_spec (currentQuestionIndex st)
                (Z.of_nat (length (questions t')) - 1)); lia.
  - rewrite timerTick_frame. unfold timerTick, consistent in *.
    destruct (currentScreen st) eqn:Hs; simpl; rewrite ?Hs; try done.
Qed.

Lemma sessionStep_consistent st e :
  consistent st → consistent (sessionStep documentId st e).
Proof.
  intros Hc.
  destruct e as [|t now|err|u|confirm now|r|err|]; simpl.
  - unfold startOffered. destruct (currentScreen st) eqn:Hs; try done.
    destruct (isGenerating st) eqn:Hg; [done|]. simpl.
    unfold consistent in *. simpl. rewrite Hs in *.
    destruct Hc as (?&?&?&?&?&?&?&?). repeat split; done.
  - destruct (isGenerating st) eqn:Hg; [|done].
    unfold consistent in *. simpl.
    destruct (currentScreen st) eqn:Hs.
    + destruct Hc as (?&Hatt&?&?&?&?&?&Herr).
      exists t, now. repeat (split; [done || by apply Herr|]). by left.
    + destruct Hc as (?&?&?&?&?&?&?&?&?). congruence.
    + destruct Hc as (?&?&?&?&?&?&?&?&?). congruence.
  - destruct (isGenerating st) eqn:Hg; [|done].
    unfold consistent in *. simpl.
    destruct (currentScreen st) eqn:Hs.
    + destruct Hc as (?&?&?&?&?&?&?&?). repeat split; done.
    + destruct Hc as (?&?&?&?&?&?&?&?&?). congruence.
    + destruct Hc as (?&?&?&?&?&?&?&?&?). congruence.
  - by apply uiStep_consistent.
  - destruct (testScreenShown st) eqn:Hshown; [|done].
    apply testScreenShown_inv in Hshown as (Hs & t & q & Ht & Hq).
    destruct (submitOffered st); [|done].
    destruct (isSubmitting st) eqn:Hsub; [done|]. simpl.
    destruct (handleSubmitTest_state confirm now st) as [->| ->]; [done|].
    unfold consistent in *. simpl. by rewrite Hs in *.
  - destruct (isSubmitting st) eqn:Hsub; [|done].
    unfold consistent in *. simpl.
    destruct (currentScreen st) eqn:Hs.
    + destruct Hc as (?&?&?&?&?&?&?&?). congruence.
    + destruct Hc as (t & s & ?&?&?&?&?&?&?).
      exists t, r. repeat (split; [done|]). done.
    + destruct Hc as (?&?&?&?&?&?&?&?&?). congruence.
  - destruct (isSubmitting st) eqn:Hsub; [|done].
    unfold consistent in *. simpl.
    destruct (currentScreen st) eqn:Hs.
    + destruct Hc as (?&?&?&?&?&?&?&?). congruence.
    + destruct Hc as (t & s & ?&?&?&?&?&?&?).
      exists t, s. repeat (split; [done|]). done.
    + destruct Hc as (?&?&?&?&?&?&?&?&?). congruence.
  - unfold resultsScreenShown.
    destruct (currentScreen st) eqn:Hs; try done.
    destruct (testAttempt st) as [attempt|] eqn:Hatt; [|done].
    unfold consistent in *. simpl. rewrite Hs in Hc.
    destruct Hc as (t & r & ?&?&?&?&?&?&?). repeat split; done.
Qed.

Lemma sessionRun_consistent es st :
  consistent st → consistent (sessionRun documentId es st).
Proof.
  revert st. induction es as [|e es IH]; intros st Hc; [done|].
  apply IH. by apply sessionStep_consistent.
Qed.
Lemma reachable_consistent es :
  consistent (sessionRun documentId es initialState).
Proof. apply sessionRun_consistent, consistent_initialState. Qed.

Lemma unansweredCount_empty t :
  unansweredCount t ∅ = length (questions t).
Proof.
  unfold unansweredCount. induction (questions t) as [|q qs IH]; [done|].
  simpl. rewrite lookup_empty. simpl. by rewrite IH.
Qed.
End SessionInvariant.

(** X3: in every state the modal can reach from its initial state, each
    screen holds exactly the data it needs: the start screen holds no test,
    no attempt, no answers, index 0 and a stopped timer at 0; the test
    screen holds a test and a start instant and no attempt; the results
    screen holds a test and an attempt; a generate call is outstanding only
    on the start screen and a submit call only on the test screen. *)
Theorem screens_hold_their_data (documentId : string)
    (es : list TestSession.SessionEvent) :
  let st := TestSession.sessionRun documentId es initialState in
  (currentScreen st = ScreenStart →
     test st = None ∧ testAttempt st = None ∧ answers st = ∅
     ∧ currentQuestionIndex st = 0 ∧ startTime st = None
     ∧ elapsedSeconds st = 0)
  ∧ (currentScreen st = ScreenTest →
     is_Some (test st) ∧ is_Some (startTime st) ∧ testAttempt st = None)
  ∧ (currentScreen st = ScreenResults →
     is_Some (test st) ∧ is_Some (testAttempt st))
  ∧ (isGenerating st = true → currentScreen st = ScreenStart)
  ∧ (isSubmitting st = true → currentScreen st = ScreenTest).
Proof.
  intros st. pose proof (reachable_consistent documentId es) as Hc.
  fold st in Hc. unfold TestSession.consistent in Hc.
  destruct (currentScreen st) eqn:Hs.
  - destruct Hc as (?&?&?&?&?&?&?&?). repeat split; try done; congruence.
  - destruct Hc as (t & s & ?&?&?&?&?&?&?).
    repeat split; try done; try congruence; by eexists.
  - destruct Hc as (t & r & ?&?&?&?&?&?&?).
    repeat split; try done; try congruence; by eexists.
Qed.

(** X4: whenever a generate call resolves, whatever happened in the modal
    before, the session that begins shows 00:00, has no answer, shows
    question index 0 and counts every question as unanswered. *)
Theorem every_session_begins_fresh (documentId : string)
    (es : list TestSession.SessionEvent) (t : DocumentTest) (now : Z) :
  isGenerating (TestSession.sessionRun documentId es initialState) = true →
  currentScreen
    (TestSession.sessionRun documentId
       (es ++ [TestSession.GenerateResolved t now]) initialState)
    = ScreenTest
  ∧ test
      (TestSession.sessionRun documentId
         (es ++ [TestSession.GenerateResolved t now]) initialState)
    = Some t
  ∧ TestModalView.formatTime
      (elapsedSeconds
         (TestSession.sessionRun documentId
            (es ++ [TestSession.GenerateResolved t now]) initialState))
    = "00:00"
  ∧ answers
      (TestSession.sessionRun documentId
         (es ++ [TestSession.GenerateResolved t now]) initialState) = ∅
  ∧ currentQuestionIndex
      (TestSession.sessionRun documentId
         (es ++ [TestSession.GenerateResolved t now]) initialState) = 0
  ∧ unansweredCount t
      (answers
         (TestSession.sessionRun documentId
            (es ++ [TestSession.GenerateResolved t now]) initialState))
    = length (questions t).
Proof.
  intros Hgen. unfold TestSession.sessionRun in *. rewrite foldl_app. simpl.
  pose proof (reachable_consistent documentId es) as Hc.
  unfold TestSession.sessionRun, TestSession.consistent in Hc.
  rewrite Hgen. simpl.
  destruct (currentScreen (foldl _ _ _)) eqn:Hs.
  - destruct Hc as (_&_&_&_&_&->&_). repeat split; try done.
    apply unansweredCount_empty.
  - destruct Hc as (?&?&?&?&?&?&?&?&?). congruence.
  - destruct Hc as (?&?&?&?&?&?&?&?&?). congruence.
Qed.

Lemma every_session_begins_fresh_witness :
  TestModalView.formatTime
    (elapsedSeconds
       (TestSession.sessionRun "d-1"
          ((SessionSamples.untilResults
            ++ [TestSession.ClickTakeAnotherTest; TestSession.ClickStartTest])
           ++ [TestSession.GenerateResolved (Samples.sampleTest ready)
                 20000])
          initialState))
  = "00:00".
Proof.
  apply (every_session_begins_fresh "d-1"
           (SessionSamples.untilResults
            ++ [TestSession.ClickTakeAnotherTest; TestSession.ClickStartTest])
           (Samples.sampleTest ready) 20000).
  reflexivity.
Defined.

(** X5: in every reachable state that holds a test with at least one
    question and pairwise distinct question identifiers, the "remaining"
    counter of the footer ([totalQuestions - answeredCount]) is the
    unanswered count that the submit prompt would show, and the progress
    count never exceeds the total. *)
Theorem remaining_counter_is_unanswered_count (documentId : string)
    (es : list TestSession.SessionEvent) (t : DocumentTest) :
  test (TestSession.sessionRun documentId es initialState) = Some t →
  questions t ≠ [] →
  NoDup (question_id <$> questions t) →
  TestModalView.totalQuestions
    (TestSession.sessionRun documentId es initialState)
  - TestModalView.answeredCount
      (TestSession.sessionRun documentId es initialState)
  = Z.of_nat
      (unansweredCount t
         (answers (TestSession.sessionRun documentId es initialState)))
  ∧ 0 ≤ TestModalView.answeredCount
          (TestSession.sessionRun documentId es initialState)
      ≤ TestModalView.totalQuestions
          (TestSession.sessionRun documentId es initialState).
Proof.
  intros Ht Hne Hnodup.
  pose proof (reachable_consistent documentId es) as Hc.
  set (st := TestSession.sessionRun documentId es initialState) in *.
  assert (TestSession.answersOf t (answers st)) as Ha.
  { unfold TestSession.consistent in Hc.
    destruct (currentScreen st).
    - destruct Hc as (?&_). congruence.
    - destruct Hc as (t' & ? & ?&?&?&?&?&?&?).
      by assert (t' = t) as -> by congruence.
    - destruct Hc as (t' & ? & ?&?&?&?&?&?&?).
      by assert (t' = t) as -> by congruence. }
  unfold TestModalView.totalQuestions, TestModalView.answeredCount.
  rewrite Ht. unfold truthyNum.
  destruct (Z.eqb_spec (Z.of_nat (length (questions t))) 0) as [Hz|_].
  { destruct (questions t); [done|simpl in Hz; lia]. }
  simpl.
  pose proof (filter_negb_length
                (λ q, truthy (answers st !! toString (question_id q)))
                (questions t)) as Hsum.
  rewrite (answered_questions_count (questions t) (answers st)) in Hsum.
  - unfold unansweredCount. lia.
  - done.
  - intros k [v Hk]. by destruct (Ha k v Hk).
  - intros k v Hk. destruct (Ha k v Hk) as [_ [l ->]].
    apply labelString_truthy.
Qed.

Lemma remaining_counter_is_unanswered_count_witness :
  TestModalView.totalQuestions
    (TestSession.sessionRun "d-1" SessionSamples.untilLastQuestion
       initialState)
  - TestModalView.answeredCount
      (TestSession.sessionRun "d-1" SessionSamples.untilLastQuestion
         initialState)
  = Z.of_nat
      (unansweredCount (Samples.sampleTest ready)
         (answers
            (TestSession.sessionRun "d-1" SessionSamples.untilLastQuestion
               initialState))).
Proof.
  apply (remaining_counter_is_unanswered_count "d-1"
           SessionSamples.untilLastQuestion (Samples.sampleTest ready)).
  - reflexivity.
  - discriminate.
  - apply (bool_decide_unpack _). vm_compute. reflexivity.
Defined.

(** X6: in every reachable state that holds a test with at least one
    question, the index addresses a question, so the test screen always
    has a question to show; the Submit button is offered exactly on the
    last question; and every navigation button that accepts a click moves
    the index by exactly one. *)
Theorem navigation_buttons_are_live (documentId : string)
    (es : list TestSession.SessionEvent) (t : DocumentTest) :
  test (TestSession.sessionRun documentId es initialState) = Some t →
  questions t ≠ [] →
  let st := TestSession.sessionRun documentId es initialState in
  0 ≤ currentQuestionIndex st ≤ Z.of_nat (length (questions t)) - 1
  ∧ (∃ q, TestModalView.currentQuestion st = Some q ∧ q ∈ questions t)
  ∧ (currentScreen st = ScreenTest → TestModalView.testScreenShown st = true)
  ∧ (TestModalView.submitOffered st = true
     ↔ currentQuestionIndex st = Z.of_nat (length (questions t)) - 1)
  ∧ (TestModalView.submitOffered st = false →
     currentQuestionIndex (handleNextQuestion st)
       = currentQuestionIndex st + 1)
  ∧ (TestModalView.previousDisabled st = false →
     currentQuestionIndex (handlePreviousQuestion st)
       = currentQuestionIndex st - 1).
Proof.
  intros Ht Hne st.
  pose proof (reachable_consistent documentId es) as Hc. fold st in Hc, Ht.
  assert (0 < Z.of_nat (length (questions t))) as Hpos.
  { destruct (questions t); [done|simpl; lia]. }
  assert (0 ≤ currentQuestionIndex st ≤ Z.of_nat (length (questions t)) - 1)
    as Hi.
  { unfold TestSession.consistent, TestSession.indexOf in Hc.
    destruct (currentScreen st).
    - destruct Hc as (?&_). congruence.
    - destruct Hc as (t' & ? & Ht' &?&?&?&?&?&?).
      assert (t' = t) as -> by congruence. lia.
    - destruct Hc as (t' & ? & Ht' &?&?&?&?&?&?).
      assert (t' = t) as -> by congruence. lia. }
  assert (∃ q, TestModalView.currentQuestion st = Some q) as [q Hq].
  { unfold TestModalView.currentQuestion. rewrite Ht.
    destruct (Z.ltb_spec (currentQuestionIndex st) 0); [lia|].
    apply lookup_lt_is_Some_2. lia. }
  assert (TestModalView.totalQuestions st = Z.of_nat (length (questions t)))
    as Htotal.
  { unfold TestModalView.totalQuestions, truthyNum. rewrite Ht.
    destruct (Z.eqb_spec (Z.of_nat (length (questions t))) 0); [lia|done]. }
  split; [done|]. repeat apply conj.
  - exists q. split; [done|]. by apply (currentQuestion_elem st).
  - intros Hs. unfold TestModalView.testScreenShown. by rewrite Hs, Ht, Hq.
  - unfold TestModalView.submitOffered. rewrite Htotal. apply Z.eqb_eq.
  - unfold TestModalView.submitOffered. rewrite Htotal. apply Z.eqb_eq.
  - unfold TestModalView.submitOffered. rewrite Htotal.
    intros Hno%Z.eqb_neq. rewrite (handleNextQuestion_index _ _ Ht).
    destruct (Z.ltb_spec (currentQuestionIndex st)
                (Z.of_nat (length (questions t)) - 1)); lia.
  - unfold TestModalView.previousDisabled. intros Hno%Z.eqb_neq.
    rewrite handlePreviousQuestion_index.
    destruct (Z.ltb_spec 0 (currentQuestionIndex st)); lia.
Qed.

Lemma navigation_buttons_are_live_witness :
  TestModalView.submitOffered
    (TestSession.sessionRun "d-1" SessionSamples.untilLastQuestion
       initialState) = true
  ↔ currentQuestionIndex
      (TestSession.sessionRun "d-1" SessionSamples.untilLastQuestion
         initialState)
    = Z.of_nat (length (questions (Samples.sampleTest ready))) - 1.
Proof.
  apply (navigation_buttons_are_live "d-1" SessionSamples.untilLastQuestion
           (Samples.sampleTest ready)).
  - reflexivity.
  - discriminate.
Defined.

(** X7: a generated test without questions still opens the test screen,
    but [renderTestScreen] then renders nothing, the total is shown as the
    fallback 20, and no click on an option, on Previous, on Next or on
    Submit can change the state. *)
Theorem empty_test_renders_nothing (documentId : string) (t : DocumentTest)
    (now : Z) (st : State) :
  questions t = [] →
  let st' := handleGenerateTest_fulfilled t now st in
  currentScreen st' = ScreenTest
  ∧ TestModalView.currentQuestion st' = None
  ∧ TestModalView.testScreenShown st' = false
  ∧ TestModalView.totalQuestions st' = 20
  ∧ (∀ o, TestModalView.uiStep st' (TestModalView.ClickOption o) = st')
  ∧ TestModalView.uiStep st' TestModalView.ClickPrevious = st'
  ∧ TestModalView.uiStep st' TestModalView.ClickNext = st'
  ∧ (∀ confirm now',
       TestSession.sessionStep documentId st'
         (TestSession.ClickSubmit confirm now') = st').
Proof.
  intros Hq st'.
  assert (TestModalView.currentQuestion st' = None) as Hcur.
  { unfold TestModalView.currentQuestion. simpl. by rewrite Hq. }
  assert (TestModalView.testScreenShown st' = false) as Hshown.
  { unfold TestModalView.testScreenShown. simpl. by rewrite Hcur. }
  repeat apply conj; try done.
  - unfold TestModalView.totalQuestions. simpl. by rewrite Hq.
  - intros o. simpl. by rewrite Hshown.
  - simpl. by rewrite Hshown.
  - simpl. by rewrite Hshown.
  - intros confirm now'. simpl. by rewrite Hshown.
Qed.

Lemma empty_test_renders_nothing_witness :
  TestModalView.testScreenShown
    (handleGenerateTest_fulfilled SessionSamples.emptyTest 5000
       Samples.loadingState) = false
  ∧ TestModalView.totalQuestions
      (handleGenerateTest_fulfilled SessionSamples.emptyTest 5000
         Samples.loadingState) = 20.
Proof.
  destruct (empty_test_renders_nothing "d-1" SessionSamples.emptyTest 5000
              Samples.loadingState) as (_ & _ & Hshown & Htotal & _).
  - reflexivity.
  - split; [exact Hshown | exact Htotal].
Defined.

(** X8: from every reachable state in which the results screen is shown,
    "Take Another Test" gives back exactly the initial state of the
    component: nothing of the finished session is left. *)
Theorem take_another_test_restores_initial_state (documentId : string)
    (es : list TestSession.SessionEvent) :
  TestSession.resultsScreenShown
    (TestSession.sessionRun documentId es initialState) = true →
  TestSession.sessionRun documentId
    (es ++ [TestSession.ClickTakeAnotherTest]) initialState
  = initialState.
Proof.
  intros Hshown. unfold TestSession.sessionRun in *. rewrite foldl_app.
  simpl. rewrite Hshown.
  pose proof (reachable_consistent documentId es) as Hc.
  unfold TestSession.sessionRun, TestSession.consistent in Hc.
  unfold TestSession.resultsScreenShown in Hshown.
  destruct (currentScreen (foldl _ _ _)) eqn:Hs; try done.
  destruct Hc as (t & r & _ & _ & Hsub & Hgen & Herr & _).
  apply state_eq; simpl; done.
Qed.

Lemma take_another_test_restores_initial_state_witness :
  TestSession.sessionRun "d-1"
    (SessionSamples.untilResults ++ [TestSession.ClickTakeAnotherTest])
    initialState
  = initialState.
Proof.
  apply (take_another_test_restores_initial_state "d-1"
           SessionSamples.untilResults).
  reflexivity.
Defined.

(** X9: on the results screen nothing but "Take Another Test" changes the
    state: no click, no timer firing and no late reply touches the test,
    the answers or the attempt of the finished session. *)
Theorem results_screen_is_frozen (documentId : string)
    (es : list TestSession.SessionEvent) (e : TestSession.SessionEvent) :
  currentScreen (TestSession.sessionRun documentId es initialState)
    = ScreenResults →
  e ≠ TestSession.ClickTakeAnotherTest →
  TestSession.sessionStep documentId
    (TestSession.sessionRun documentId es initialState) e
  = TestSession.sessionRun documentId es initialState.
Proof.
  intros Hs Hne.
  pose proof (reachable_consistent documentId es) as Hc.
  set (st := TestSession.sessionRun documentId es initialState) in *.
  unfold TestSession.consistent in Hc. rewrite Hs in Hc.
  destruct Hc as (t & r & _ & _ & Hsub & Hgen & _).
  assert (TestModalView.testScreenShown st = false) as Hshown.
  { unfold TestModalView.testScreenShown. by rewrite Hs. }
  destruct e as [|t' now|err|u|confirm now|r'|err|]; simpl.
  - unfold TestSession.startOffered. by rewrite Hs.
  - by rewrite Hgen.
  - by rewrite Hgen.
  - destruct u as [o| | |now]; simpl; rewrite ?Hshown; try done.
    unfold timerTick. by rewrite Hs.
  - by rewrite Hshown.
  - by rewrite Hsub.
  - by rewrite Hsub.
  - done.
Qed.

Lemma results_screen_is_frozen_witness :
  TestSession.sessionStep "d-1"
    (TestSession.sessionRun "d-1" SessionSamples.untilResults initialState)
    (TestSession.Ui (TestModalView.ClickOption B))
  = TestSession.sessionRun "d-1" SessionSamples.untilResults initialState.
Proof.
  apply (results_screen_is_frozen "d-1" SessionSamples.untilResults
           (TestSession.Ui (TestModalView.ClickOption B))).
  - reflexivity.
  - discriminate.
Defined.

(** X10: while the test screen is shown for a session whose start instant
    is a non-zero clock reading, a firing of the timer at clock reading
    [now] displays exactly the number of seconds that a submit at [now]
    would send as time taken, and the display never runs backwards while
    the clock does not. *)
Theorem elapsed_display_matches_time_taken (now now' start : Z)
    (st : State) :
  currentScreen st = ScreenTest →
  startTime st = Some start →
  start ≠ 0 →
  timeTakenAt now (startTime st) = Some (elapsedSeconds (timerTick now st))
  ∧ elapsedSeconds (timerTick now st) = (now - start) / 1000
  ∧ (now ≤ now' →
     elapsedSeconds (timerTick now st)
       ≤ elapsedSeconds (timerTick now' st))
  ∧ timerTick now st = setElapsedSeconds ((now - start) / 1000) st.
Proof.
  intros Hs Hstart Hnz.
  assert (∀ n, timerTick n st = setElapsedSeconds ((n - start) / 1000) st)
    as Htick.
  { intros n. unfold timerTick, truthyNum, floorSeconds.
    rewrite Hs, Hstart. by destruct (Z.eqb_spec start 0). }
  rewrite !Htick, Hstart, (timeTakenAt_started now start Hnz). simpl.
  repeat split; try done.
  intros Hle. apply Z.div_le_mono; lia.
Qed.

Lemma elapsed_display_matches_time_taken_witness :
  timeTakenAt 68999 (startTime Samples.twoAnswered)
  = Some (elapsedSeconds (timerTick 68999 Samples.twoAnswered)).
Proof.
  apply (elapsed_display_matches_time_taken 68999 68999 5000
           Samples.twoAnswered); [reflexivity | reflexivity | lia].
Defined.

(** X11: a rejected generate call changes nothing but the two fields it is
    meant to change: the loading flag is off again and a non-empty message
    is stored; the Start Test button then accepts a click again, and that
    retry clears the message and issues the same request. *)
Theorem generate_failure_allows_retry (documentId : string)
    (err : AxiosError) (st : State) :
  let failed :=
    handleGenerateTest_rejected err (handleGenerateTest documentId st).1 in
  failed
    = setIsGenerating false
        (setGenerateError (Some (generateErrorMessage err)) st)
  ∧ generateErrorMessage err ≠ ""
  ∧ (currentScreen st = ScreenStart →
     TestSession.startOffered failed = true)
  ∧ generateError (handleGenerateTest documentId failed).1 = None
  ∧ isGenerating (handleGenerateTest documentId failed).1 = true
  ∧ (handleGenerateTest documentId failed).2 = [GenerateTest documentId].
Proof.
  intros failed. repeat apply conj; try done.
  - unfold generateErrorMessage, or_else.
    destruct (truthy (payloadField data_error err)) eqn:He.
    + simpl. rewrite He.
      by destruct (payloadField data_error err) as [[|??]|].
    + simpl. destruct (truthy (payloadField data_message err)) eqn:Hm.
      * by destruct (payloadField data_message err) as [[|??]|].
      * done.
  - intros Hs. unfold TestSession.startOffered. simpl. by rewrite Hs.
Qed.

(** Splits on which of the five letter grades the string [g] is, if any. *)
Ltac grade_cases g :=
  destruct (String.eqb_spec g "A");
  [subst g|destruct (String.eqb_spec g "B");
  [subst g|destruct (String.eqb_spec g "C");
  [subst g|destruct (String.eqb_spec g "D");
  [subst g|destruct (String.eqb_spec g "F");
  [subst g|]]]]].

(** X12: both grade colour functions give the five letter grades five
    different classes, in the light and in the dark theme, and give their
    grey default class exactly to every other string. *)
Theorem grade_colours_distinguish_grades (darkMode : bool)
    (grade grade' : string) :
  (TestModalView.getGradeColor grade = "text-gray-600"
   ↔ grade ∉ ["A"; "B"; "C"; "D"; "F"])
  ∧ (TestModalView.getGradeBgColor darkMode grade
       = (if darkMode then "bg-gray-800 border-gray-700"
          else "bg-gray-50 border-gray-300")
     ↔ grade ∉ ["A"; "B"; "C"; "D"; "F"])
  ∧ (grade ∈ ["A"; "B"; "C"; "D"; "F"] →
     TestModalView.getGradeColor grade = TestModalView.getGradeColor grade' →
     grade = grade')
  ∧ (grade ∈ ["A"; "B"; "C"; "D"; "F"] →
     TestModalView.getGradeBgColor darkMode grade
       = TestModalView.getGradeBgColor darkMode grade' →
     grade = grade').
Proof.
  unfold TestModalView.getGradeColor, TestModalView.getGradeBgColor.
  rewrite !elem_of_cons, !elem_of_nil.
  destruct darkMode; grade_cases grade; simpl;
    (split; [|split; [|split]];
     [ split; [try discriminate; tauto | tauto]
     | split; [try discriminate; tauto | tauto]
     | intros Hin Heq; try tauto;
       grade_cases grade'; simpl in Heq; try discriminate; done
     | intros Hin Heq; try tauto;
       grade_cases grade'; simpl in Heq; try discriminate; done ]).
Qed.

(** * Further properties of the REST client and of its users *)

Section InterceptorCases.
Import ApiClient.
Variable server : nat → Reply.
Implicit Types (c : RequestConfig) (w : World).

Lemma axiosInstance_first_fulfilled fuel c w data :
  server (length (log w)) = Fulfilled data →
  axiosInstance server (S fuel) c w
  = Some (record (Sent (requestInterceptor w c)) w, Resolve data).
Proof. intros Hfirst. rewrite axiosInstance_unfold. cbv zeta. by rewrite Hfirst. Qed.

Lemma refreshes_dec c w status :
  server (length (log w)) = Rejected status →
  refreshes server c w
  ↔ bool_decide (status = Some 401) && negb (_retry c) = true
    ∧ truthy (getRefreshToken w) = true.
Proof.
  intros Hfirst. unfold refreshes. rewrite Hfirst. split.
  - intros (Hs & -> & Ht). injection Hs as ->. split; [|done].
    by rewrite bool_decide_eq_true_2.
  - intros [Hg Ht]. apply andb_true_iff in Hg as [Hs Hr].
    apply bool_decide_eq_true in Hs as ->.
    apply negb_true_iff in Hr. done.
Qed.

(** Without a refresh the first rejection is the outcome and only the log
    has grown. *)
Lemma axiosInstance_not_refreshed fuel c w status :
  server (length (log w)) = Rejected status →
  ¬ refreshes server c w →
  ∃ cfg,
    axiosInstance server (S fuel) c w
    = Some (record (Sent (requestInterceptor w c)) w,
            Reject {| config := cfg; response_status := status |})
    ∧ url cfg = url (requestInterceptor w c)
    ∧ authorization cfg = authorization (requestInterceptor w c).
Proof.
  intros Hfirst Hno. rewrite (refreshes_dec _ _ _ Hfirst) in Hno.
  rewrite axiosInstance_unfold. cbv zeta. rewrite Hfirst.
  rewrite requestInterceptor_retry.
  change (getRefreshToken (record _ w)) with (getRefreshToken w).
  destruct (bool_decide (status = Some 401) && negb (_retry c)) eqn:Hg.
  - destruct (getRefreshToken w) as [refresh|] eqn:Hrefresh.
    + destruct (truthy (Some refresh)) eqn:Ht; [by destruct Hno|].
      by eexists.
    + by eexists.
  - by eexists.
Qed.

Lemma axiosInstance_refresh_rejected fuel c w refresh rs :
  refreshes server c w →
  getRefreshToken w = Some refresh →
  server (S (length (log w))) = Rejected rs →
  axiosInstance server (S fuel) c w
  = Some (setLocation "/login"
            (clearTokens
               (record (RefreshPost refresh)
                  (record (Sent (requestInterceptor w c)) w))),
          Reject {| config := {| url := "/api/users/token/refresh/";
                                 authorization := None; _retry := false |};
                    response_status := rs |}).
Proof.
  intros (Hfirst & Hretry & Ht) Hrefresh Hsecond.
  rewrite axiosInstance_unfold. cbv zeta.
  rewrite Hfirst, requestInterceptor_retry, Hretry, length_log_record.
  change (getRefreshToken (record _ w)) with (getRefreshToken w).
  rewrite Hrefresh in *. rewrite Ht, Hsecond.
  by rewrite bool_decide_eq_true_2.
Qed.

Lemma axiosInstance_replayed fuel c w refresh access :
  refreshes server c w →
  getRefreshToken w = Some refresh →
  server (S (length (log w))) = Fulfilled access →
  axiosInstance server (S (S fuel)) c w
  = let w3 := setTokens access refresh
                (record (RefreshPost refresh)
                   (record (Sent (requestInterceptor w c)) w)) in
    let c2 := requestInterceptor w3
                (withAuthorization access
                   (markRetry (requestInterceptor w c))) in
    Some (record (Sent c2) w3,
          match server (S (S (length (log w)))) with
          | Fulfilled data => Resolve data
          | Rejected status =>
              Reject {| config := c2; response_status := status |}
          end).
Proof.
  intros (Hfirst & Hretry & Ht) Hrefresh Hsecond.
  rewrite axiosInstance_unfold. cbv zeta.
  rewrite Hfirst, requestInterceptor_retry, Hretry, length_log_record.
  change (getRefreshToken (record _ w)) with (getRefreshToken w).
  rewrite Hrefresh in *. rewrite Ht, Hsecond.
  rewrite bool_decide_eq_true_2 by done. simpl andb. cbv iota.
  rewrite axiosInstance_retried by done.
  change (length (log (setTokens _ _ ?w0))) with (length (log w0)).
  by rewrite !length_log_record.
Qed.

Lemma requestInterceptor_url w c : url (requestInterceptor w c) = url c.
Proof.
  unfold requestInterceptor.
  destruct (getAccessToken w); [case_match|]; done.
Qed.

Lemma axiosInstance_total fuel c w :
  (2 ≤ fuel)%nat → is_Some (axiosInstance server fuel c w).
Proof.
  intros Hfuel. destruct fuel as [|[|fuel]]; [lia|lia|].
  destruct (server (length (log w))) as [data|status] eqn:Hfirst.
  { by rewrite (axiosInstance_first_fulfilled _ _ _ data). }
  destruct (getRefreshToken w) as [refresh|] eqn:Hrefresh.
  2: { destruct (axiosInstance_not_refreshed (S fuel) c w status Hfirst)
         as (cfg & -> & _); [|done].
       intros (_ & _ & Ht). unfold getRefreshToken in *.
       by rewrite Hrefresh in Ht. }
  destruct (bool_decide (status = Some 401) && negb (_retry c)
            && truthy (Some refresh)) eqn:Hg.
  - apply andb_true_iff in Hg as [Hg Ht].
    assert (refreshes server c w) as Hyes.
    { apply (refreshes_dec _ _ _ Hfirst). by rewrite Hrefresh. }
    destruct (server (S (length (log w)))) as [access|rs] eqn:Hsecond.
    + by rewrite (axiosInstance_replayed _ _ _ refresh access).
    + by rewrite (axiosInstance_refresh_rejected _ _ _ refresh rs).
  - destruct (axiosInstance_not_refreshed (S fuel) c w status Hfirst)
      as (cfg & -> & _); [|done].
    intros Hyes%(refreshes_dec _ _ _ Hfirst). rewrite Hrefresh in Hyes.
    destruct Hyes as [H1 H2]. by rewrite H1, H2 in Hg.
Qed.
End InterceptorCases.

(** X13: when the interceptor replays a request after a successful refresh,
    the replay is the last exchange, goes to the same URL, carries the
    retry flag and the bearer header of the access token just received,
    and that token is the one stored afterwards, next to the unchanged
    refresh token. *)
Theorem replay_carries_refreshed_token (server : nat → ApiClient.Reply)
    (fuel : nat) (c : ApiClient.RequestConfig) (w : ApiClient.World)
    (access : string) :
  (2 ≤ fuel)%nat →
  ApiClient.refreshes server c w →
  server (S (length (ApiClient.log w))) = ApiClient.Fulfilled access →
  ∃ w' r replayed,
    ApiClient.axiosInstance server fuel c w = Some (w', r)
    ∧ last (ApiClient.log w') = Some (ApiClient.Sent replayed)
    ∧ ApiClient.url replayed = ApiClient.url c
    ∧ ApiClient._retry replayed = true
    ∧ ApiClient.authorization replayed = Some (ApiClient.bearer access)
    ∧ ApiClient.getAccessToken w' = Some access
    ∧ ApiClient.getRefreshToken w' = ApiClient.getRefreshToken w
    ∧ ApiClient.location w' = ApiClient.location w.
Proof.
  intros Hfuel Hyes Hsecond. destruct fuel as [|[|fuel]]; [lia|lia|].
  pose proof Hyes as (_ & _ & Ht).
  destruct (ApiClient.getRefreshToken w) as [refresh|] eqn:Hrefresh;
    [|done].
  rewrite (axiosInstance_replayed server fuel c w refresh access)
    by done. cbv zeta.
  eexists _, _, _. split; [reflexivity|].
  split; [apply last_snoc|].
  rewrite requestInterceptor_retry, requestInterceptor_url. simpl.
  rewrite requestInterceptor_url. repeat split.
  unfold ApiClient.requestInterceptor at 1.
  change (ApiClient.getAccessToken (ApiClient.setTokens access refresh _))
    with (Some access).
  by destruct access.
Qed.

Lemma replay_carries_refreshed_token_witness :
  ∃ w' r replayed,
    ApiClient.axiosInstance ClientSamples.unauthorizedDespiteRefresh 2
      ClientSamples.getProfileRequest ClientSamples.loggedIn = Some (w', r)
    ∧ last (ApiClient.log w') = Some (ApiClient.Sent replayed)
    ∧ ApiClient.authorization replayed
      = Some (ApiClient.bearer "new-access").
Proof.
  destruct (replay_carries_refreshed_token
              ClientSamples.unauthorizedDespiteRefresh 2
              ClientSamples.getProfileRequest ClientSamples.loggedIn
              "new-access")
    as (w' & r & replayed & Hrun & Hlast & _ & _ & Hauth & _).
  - lia.
  - repeat split.
  - reflexivity.
  - exists w', r, replayed. repeat split; assumption.
Defined.

(** X14: when the refresh call itself is rejected, the request is not
    replayed, both tokens are removed from the storage, the page is sent to
    /login, and the caller receives the rejection of the refresh call. *)
Theorem refresh_failure_clears_tokens (server : nat → ApiClient.Reply)
    (fuel : nat) (c : ApiClient.RequestConfig) (w : ApiClient.World)
    (rs : option Z) :
  (2 ≤ fuel)%nat →
  ApiClient.refreshes server c w →
  server (S (length (ApiClient.log w))) = ApiClient.Rejected rs →
  ∃ w' err refresh,
    ApiClient.axiosInstance server fuel c w
      = Some (w', ApiClient.Reject err)
    ∧ ApiClient.response_status err = rs
    ∧ ApiClient.getAccessToken w' = None
    ∧ ApiClient.getRefreshToken w' = None
    ∧ ApiClient.location w' = Some "/login"
    ∧ ApiClient.log w'
      = ApiClient.log w
        ++ [ApiClient.Sent (ApiClient.requestInterceptor w c);
            ApiClient.RefreshPost refresh].
Proof.
  intros Hfuel Hyes Hsecond. destruct fuel as [|fuel]; [lia|].
  pose proof Hyes as (_ & _ & Ht).
  destruct (ApiClient.getRefreshToken w) as [refresh|] eqn:Hrefresh;
    [|done].
  rewrite (axiosInstance_refresh_rejected server fuel c w refresh rs)
    by done.
  eexists _, _, refresh. split; [reflexivity|]. repeat split.
  simpl. by rewrite <- app_assoc.
Qed.

Lemma refresh_failure_clears_tokens_witness :
  ∃ w' err refresh,
    ApiClient.axiosInstance ClientSamples.alwaysUnauthorized 2
      ClientSamples.getProfileRequest ClientSamples.loggedIn
      = Some (w', ApiClient.Reject err)
    ∧ ApiClient.response_status err = Some 401
    ∧ ApiClient.getAccessToken w' = None
    ∧ ApiClient.getRefreshToken w' = None
    ∧ ApiClient.location w' = Some "/login"
    ∧ ApiClient.log w'
      = ApiClient.log ClientSamples.loggedIn
        ++ [ApiClient.Sent
              (ApiClient.requestInterceptor ClientSamples.loggedIn
                 ClientSamples.getProfileRequest);
            ApiClient.RefreshPost refresh].
Proof.
  apply (refresh_failure_clears_tokens ClientSamples.alwaysUnauthorized 2
           ClientSamples.getProfileRequest ClientSamples.loggedIn
           (Some 401)).
  - lia.
  - repeat split.
  - reflexivity.
Defined.

(** X15: unless the interceptor starts the refresh flow, a call leaves the
    stored tokens and the location as they were, makes exactly one
    exchange, and hands the reply of that exchange to the caller: the data
    of a success, or a rejection with the status received. *)
Theorem call_without_refresh_leaves_storage (server : nat → ApiClient.Reply)
    (fuel : nat) (c : ApiClient.RequestConfig) (w : ApiClient.World) :
  (2 ≤ fuel)%nat →
  ¬ ApiClient.refreshes server c w →
  ∃ w' r,
    ApiClient.axiosInstance server fuel c w = Some (w', r)
    ∧ ApiClient.storage w' = ApiClient.storage w
    ∧ ApiClient.location w' = ApiClient.location w
    ∧ ApiClient.log w'
      = ApiClient.log w
        ++ [ApiClient.Sent (ApiClient.requestInterceptor w c)]
    ∧ match server (length (ApiClient.log w)) with
      | ApiClient.Fulfilled data => r = ApiClient.Resolve data
      | ApiClient.Rejected status =>
          ∃ err, r = ApiClient.Reject err
                 ∧ ApiClient.response_status err = status
                 ∧ ApiClient.url (ApiClient.config err) = ApiClient.url c
      end.
Proof.
  intros Hfuel Hno. destruct fuel as [|fuel]; [lia|].
  destruct (server (length (ApiClient.log w))) as [data|status] eqn:Hfirst.
  - rewrite (axiosInstance_first_fulfilled server fuel c w data Hfirst).
    eexists _, _. repeat split.
  - destruct (axiosInstance_not_refreshed server fuel c w status Hfirst Hno)
      as (cfg & -> & Hurl & _).
    eexists _, _. split; [reflexivity|]. repeat split.
    eexists. repeat split. simpl. by rewrite Hurl, requestInterceptor_url.
Qed.

Lemma call_without_refresh_leaves_storage_witness :
  ∃ w' r,
    ApiClient.axiosInstance ClientSamples.alwaysUnauthorized 2
      ClientSamples.getProfileRequest ClientSamples.withoutRefreshToken
      = Some (w', r)
    ∧ ApiClient.storage w'
      = ApiClient.storage ClientSamples.withoutRefreshToken.
Proof.
  destruct (call_without_refresh_leaves_storage
              ClientSamples.alwaysUnauthorized 2
              ClientSamples.getProfileRequest
              ClientSamples.withoutRefreshToken)
    as (w' & r & Hrun & Hstorage & _).
  - lia.
  - intros (_ & _ & Ht). discriminate Ht.
  - exists w', r. split; assumption.
Defined.

(** X16: [apiService.logout] removes both tokens when no refresh token is
    stored (without any exchange) and when the logout call succeeds; when
    the logout call is rejected with anything but a 401 it throws that
    rejection and leaves the stored tokens as they were. *)
Theorem logout_keeps_tokens_when_call_fails (server : nat → ApiClient.Reply)
    (fuel : nat) (w : ApiClient.World) :
  (2 ≤ fuel)%nat →
  (truthy (ApiClient.getRefreshToken w) = false →
     ApiService.logout server fuel w
     = Some (ApiClient.clearTokens w, ApiService.Returned))
  ∧ (truthy (ApiClient.getRefreshToken w) = true →
     ∀ data,
       server (length (ApiClient.log w)) = ApiClient.Fulfilled data →
       ∃ w',
         ApiService.logout server fuel w = Some (w', ApiService.Returned)
         ∧ ApiClient.getAccessToken w' = None
         ∧ ApiClient.getRefreshToken w' = None
         ∧ length (ApiClient.log w') = S (length (ApiClient.log w)))
  ∧ (truthy (ApiClient.getRefreshToken w) = true →
     ∀ status,
       server (length (ApiClient.log w)) = ApiClient.Rejected status →
       status ≠ Some 401 →
       ∃ w' err,
         ApiService.logout server fuel w = Some (w', ApiService.Threw err)
         ∧ ApiClient.response_status err = status
         ∧ ApiClient.storage w' = ApiClient.storage w).
Proof.
  intros Hfuel. destruct fuel as [|fuel]; [lia|].
  unfold ApiService.logout. repeat apply conj.
  - intros Ht. destruct (ApiClient.getRefreshToken w); [|done].
    by rewrite Ht.
  - intros Ht data Hfirst.
    destruct (ApiClient.getRefreshToken w); [|done]. rewrite Ht.
    rewrite (axiosInstance_first_fulfilled server fuel _ w data Hfirst).
    eexists. split; [reflexivity|]. repeat split.
    simpl. rewrite length_app. simpl. lia.
  - intros Ht status Hfirst Hne.
    destruct (ApiClient.getRefreshToken w); [|done]. rewrite Ht.
    destruct (axiosInstance_not_refreshed server fuel
                (ApiService.request "/api/users/logout/") w status Hfirst)
      as (cfg & -> & _).
    { intros (Hs & _). rewrite Hfirst in Hs. congruence. }
    eexists _, _. repeat split.
Qed.

Lemma logout_keeps_tokens_when_call_fails_witness :
  ApiService.logout ClientSamples.alwaysUnauthorized 2
    ClientSamples.withoutRefreshToken
  = Some (ApiClient.clearTokens ClientSamples.withoutRefreshToken,
          ApiService.Returned).
Proof.
  apply (logout_keeps_tokens_when_call_fails
           ClientSamples.alwaysUnauthorized 2
           ClientSamples.withoutRefreshToken).
  - lia.
  - reflexivity.
Defined.

(** X17: [checkAuth] always ends with [loading] false.  When one of the two
    tokens is missing or empty it makes no exchange and restores nothing;
    when the profile call succeeds at once it stores the profile and the
    access token and the user counts as authenticated; when the profile
    call is rejected with anything but a 401 it restores nothing and
    removes both tokens. *)
Theorem checkAuth_outcomes (server : nat → ApiClient.Reply) (fuel : nat)
    (a : AuthContext.AuthState) (w : ApiClient.World) :
  (2 ≤ fuel)%nat →
  (∃ a' w',
     AuthContext.checkAuth server fuel a w = Some (a', w')
     ∧ AuthContext.loading a' = false)
  ∧ (truthy (ApiClient.getAccessToken w)
       && truthy (ApiClient.getRefreshToken w) = false →
     AuthContext.checkAuth server fuel a w
     = Some (AuthContext.setLoading false a, w))
  ∧ (truthy (ApiClient.getAccessToken w)
       && truthy (ApiClient.getRefreshToken w) = true →
     ∀ profile,
       server (length (ApiClient.log w)) = ApiClient.Fulfilled profile →
       ∃ a' w',
         AuthContext.checkAuth server fuel a w = Some (a', w')
         ∧ AuthContext.user a' = Some profile
         ∧ AuthContext.token a' = ApiClient.getAccessToken w
         ∧ AuthContext.isAuthenticated a' = true
         ∧ ApiClient.storage w' = ApiClient.storage w)
  ∧ (truthy (ApiClient.getAccessToken w)
       && truthy (ApiClient.getRefreshToken w) = true →
     ∀ status,
       server (length (ApiClient.log w)) = ApiClient.Rejected status →
       status ≠ Some 401 →
       ∃ w',
         AuthContext.checkAuth server fuel a w
         = Some (AuthContext.setLoading false a, w')
         ∧ ApiClient.getAccessToken w' = None
         ∧ ApiClient.getRefreshToken w' = None).
Proof.
  intros Hfuel. unfold AuthContext.checkAuth, ApiService.getProfile.
  cbv zeta. repeat apply conj.
  - destruct (truthy (ApiClient.getAccessToken w)
              && truthy (ApiClient.getRefreshToken w)); [|by eexists _, _].
    destruct (axiosInstance_total server fuel
                (ApiService.request "/api/users/profile/") w Hfuel)
      as [[w' [profile|err]] ->]; by eexists _, _.
  - by intros ->.
  - intros Hboth profile Hfirst. rewrite Hboth.
    destruct fuel as [|fuel]; [lia|].
    rewrite (axiosInstance_first_fulfilled server fuel _ w profile Hfirst).
    eexists _, _. split; [reflexivity|]. repeat split.
    apply andb_true_iff in Hboth as [Ha _]. simpl. done.
  - intros Hboth status Hfirst Hne. rewrite Hboth.
    destruct fuel as [|fuel]; [lia|].
    destruct (axiosInstance_not_refreshed server fuel
                (ApiService.request "/api/users/profile/") w status Hfirst)
      as (cfg & -> & _).
    { intros (Hs & _). rewrite Hfirst in Hs. congruence. }
    eexists. repeat split.
Qed.

Lemma checkAuth_outcomes_witness :
  AuthContext.checkAuth ClientSamples.alwaysUnauthorized 2
    AuthContext.initialAuth ClientSamples.withoutRefreshToken
  = Some (AuthContext.setLoading false AuthContext.initialAuth,
          ClientSamples.withoutRefreshToken).
Proof.
  apply (checkAuth_outcomes ClientSamples.alwaysUnauthorized 2
           AuthContext.initialAuth ClientSamples.withoutRefreshToken).
  - lia.
  - reflexivity.
Defined.

(** X18: when the profile call of [checkAuth] is answered with a 401, the
    refresh succeeds and the replay succeeds, the user is restored, but the
    token kept in the context is the access token read before the call,
    while the storage holds the refreshed one. *)
Theorem checkAuth_keeps_token_read_before_refresh
    (server : nat → ApiClient.Reply) (fuel : nat)
    (a : AuthContext.AuthState) (w : ApiClient.World)
    (access profile : string) :
  (2 ≤ fuel)%nat →
  truthy (ApiClient.getAccessToken w) = true →
  truthy (ApiClient.getRefreshToken w) = true →
  server (length (ApiClient.log w)) = ApiClient.Rejected (Some 401) →
  server (S (length (ApiClient.log w))) = ApiClient.Fulfilled access →
  server (S (S (length (ApiClient.log w)))) = ApiClient.Fulfilled profile →
  ∃ a' w',
    AuthContext.checkAuth server fuel a w = Some (a', w')
    ∧ AuthContext.user a' = Some profile
    ∧ AuthContext.loading a' = false
    ∧ AuthContext.token a' = ApiClient.getAccessToken w
    ∧ ApiClient.getAccessToken w' = Some access
    ∧ ApiClient.getRefreshToken w' = ApiClient.getRefreshToken w.
Proof.
  intros Hfuel Ha Hr Hfirst Hsecond Hthird.
  destruct fuel as [|[|fuel]]; [lia|lia|].
  unfold AuthContext.checkAuth, ApiService.getProfile. cbv zeta.
  rewrite Ha, Hr. simpl andb. cbv iota.
  destruct (ApiClient.getRefreshToken w) as [refresh|] eqn:Hrefresh;
    [|done].
  rewrite (axiosInstance_replayed server fuel _ w refresh access);
    [|repeat split; [done|by rewrite Hrefresh]|done|done].
  cbv zeta. rewrite Hthird.
  eexists _, _. split; [reflexivity|]. repeat split.
Qed.

Lemma checkAuth_keeps_token_read_before_refresh_witness :
  ∃ a' w',
    AuthContext.checkAuth
      (λ n, match n with
            | 0%nat => ApiClient.Rejected (Some 401)
            | 1%nat => ApiClient.Fulfilled "new-access"
            | _ => ApiClient.Fulfilled "profile"
            end)
      2 AuthContext.initialAuth ClientSamples.loggedIn = Some (a', w')
    ∧ AuthContext.token a' = Some "old-access"
    ∧ ApiClient.getAccessToken w' = Some "new-access".
Proof.
  destruct (checkAuth_keeps_token_read_before_refresh
              (λ n, match n with
                    | 0%nat => ApiClient.Rejected (Some 401)
                    | 1%nat => ApiClient.Fulfilled "new-access"
                    | _ => ApiClient.Fulfilled "profile"
                    end)
              2 AuthContext.initialAuth ClientSamples.loggedIn
              "new-access" "profile")
    as (a' & w' & Hrun & _ & _ & Htoken & Haccess & _);
    [lia | reflexivity..|].
  exists a', w'. repeat split; assumption.
Defined.

(** X19: after the context's [logout], whatever was logged in before, the
    user is not authenticated, both tokens are gone, and the [checkAuth] of
    the next page load makes no exchange and restores nothing. *)
Theorem logout_then_reload_stays_logged_out (server : nat → ApiClient.Reply)
    (fuel : nat) (userData accessToken : string)
    (a : AuthContext.AuthState) (w : ApiClient.World) :
  let loggedIn := AuthContext.login userData accessToken a w in
  let loggedOut := AuthContext.logout loggedIn.1 loggedIn.2 in
  AuthContext.isAuthenticated loggedIn.1 = truthy (Some accessToken)
  ∧ ApiClient.getAccessToken loggedIn.2 = Some accessToken
  ∧ ApiClient.getRefreshToken loggedIn.2 = ApiClient.getRefreshToken w
  ∧ AuthContext.isAuthenticated loggedOut.1 = false
  ∧ ApiClient.getAccessToken loggedOut.2 = None
  ∧ ApiClient.getRefreshToken loggedOut.2 = None
  ∧ AuthContext.checkAuth server fuel AuthContext.initialAuth loggedOut.2
    = Some (AuthContext.setLoading false AuthContext.initialAuth,
            loggedOut.2).
Proof. repeat split. Qed.

(** X20: the page's [handleLogout] always ends logged out: whatever the
    server answers to the logout call, and even when [apiService.logout]
    throws, the context holds no user and no token, the storage holds no
    token, and the route is the landing page. *)
Theorem handleLogout_always_logs_out (server : nat → ApiClient.Reply)
    (fuel : nat) (a : AuthContext.AuthState) (w : ApiClient.World) :
  (2 ≤ fuel)%nat →
  ∃ a' w',
    DocumentsPage.handleLogout server fuel a w = Some (a', w', "/")
    ∧ AuthContext.user a' = None
    ∧ AuthContext.token a' = None
    ∧ AuthContext.isAuthenticated a' = false
    ∧ AuthContext.loading a' = AuthContext.loading a
    ∧ ApiClient.getAccessToken w' = None
    ∧ ApiClient.getRefreshToken w' = None.
Proof.
  intros Hfuel. unfold DocumentsPage.handleLogout, ApiService.logout.
  destruct (ApiClient.getRefreshToken w) as [refresh|];
    [destruct (truthy (Some refresh))|]; try (by eexists _, _).
  destruct (axiosInstance_total server fuel
              (ApiService.request "/api/users/logout/") w Hfuel)
    as [[w' [data|err]] ->]; by eexists _, _.
Qed.

Lemma handleLogout_always_logs_out_witness :
  ∃ a' w',
    DocumentsPage.handleLogout ClientSamples.alwaysUnauthorized 2
      (AuthContext.login "profile" "old-access" AuthContext.initialAuth
         ClientSamples.loggedIn).1
      ClientSamples.loggedIn = Some (a', w', "/")
    ∧ AuthContext.isAuthenticated a' = false
    ∧ ApiClient.getAccessToken w' = None
    ∧ ApiClient.getRefreshToken w' = None.
Proof.
  destruct (handleLogout_always_logs_out ClientSamples.alwaysUnauthorized 2
              (AuthContext.login "profile" "old-access"
                 AuthContext.initialAuth ClientSamples.loggedIn).1
              ClientSamples.loggedIn)
    as (a' & w' & Hrun & _ & _ & Hauth & _ & Haccess & Hrefresh); [lia|].
  exists a', w'. repeat split; assumption.
Defined.

(** ** The documents page *)

Section DocumentsList.
Import DocumentsPage.

Lemma elem_of_keep_other (documentId : string) (docs : list Document)
    (d : Document) :
  d ∈ List.filter (λ doc, negb (String.eqb (doc_id doc) documentId)) docs
  ↔ d ∈ docs ∧ doc_id d ≠ documentId.
Proof.
  induction docs as [|d' docs IH]; simpl.
  - rewrite elem_of_nil. tauto.
  - destruct (String.eqb_spec (doc_id d') documentId) as [Heq|Hne]; simpl.
    + rewrite IH, elem_of_cons. split; [tauto|].
      intros [[->|?] ?]; [done|tauto].
    + rewrite !elem_of_cons, IH. split; [|tauto].
      intros [->|[? ?]]; tauto.
Qed.

Lemma sublist_keep_other (documentId : string) (docs : list Document) :
  sublist
    (List.filter (λ doc, negb (String.eqb (doc_id doc) documentId)) docs)
    docs.
Proof.
  induction docs as [|d docs IH]; simpl; [constructor|].
  destruct (negb _); by constructor.
Qed.
End DocumentsList.

(** X21: [handleDelete] asks before it calls: the delete request for the
    given document, and for no other, is issued exactly when the prompt is
    accepted, and the page state is untouched until the call settles.  When
    the call resolves, the list holds exactly the former documents with
    another identifier, in their former order; when it rejects, the list is
    as it was. *)
Theorem handleDelete_removes_exactly_that_document
    (confirm : string → bool) (documentId : string)
    (p : DocumentsPage.PageState) :
  (DocumentsPage.handleDelete confirm documentId p).1 = p
  ∧ (DocumentsPage.DeleteDocument documentId
       ∈ (DocumentsPage.handleDelete confirm documentId p).2
     ↔ confirm DocumentsPage.deleteConfirmMessage = true)
  ∧ (∀ other,
       DocumentsPage.DeleteDocument other
         ∈ (DocumentsPage.handleDelete confirm documentId p).2 →
       other = documentId)
  ∧ (∀ d,
       d ∈ DocumentsPage.documents
             (DocumentsPage.handleDelete_fulfilled documentId p).1
       ↔ d ∈ DocumentsPage.documents p
         ∧ DocumentsPage.doc_id d ≠ documentId)
  ∧ sublist
      (DocumentsPage.documents
         (DocumentsPage.handleDelete_fulfilled documentId p).1)
      (DocumentsPage.documents p)
  ∧ DocumentsPage.testModalFor
      (DocumentsPage.handleDelete_fulfilled documentId p).1
    = DocumentsPage.testModalFor p
  ∧ (DocumentsPage.handleDelete_rejected p).1 = p.
Proof.
  unfold DocumentsPage.handleDelete.
  destruct (confirm DocumentsPage.deleteConfirmMessage); simpl.
  - split; [done|]. split.
    { split; [done|]. intros _. apply list_elem_of_further, list_elem_of_here. }
    split.
    { intros other Hin. apply elem_of_cons in Hin as [Hin|Hin]; [done|].
      apply list_elem_of_singleton in Hin. by injection Hin. }
    split; [apply elem_of_keep_other|].
    split; [apply sublist_keep_other|done].
  - split; [done|]. split.
    { split; [|done]. intros Hin. apply list_elem_of_singleton in Hin. done. }
    split.
    { intros other Hin. apply list_elem_of_singleton in Hin. done. }
    split; [apply elem_of_keep_other|].
    split; [apply sublist_keep_other|done].
Qed.

